(** * Brave Search MCP server: the SSE relay of [mcp_server.py]

    A shallow embedding of [brave_search], [event_stream] and the [/search]
    endpoint.  The asynchronous generator is modelled as a computation over
    a [World] that records what one request does to the outside: the chunks
    it yields, the upstream GETs it issues, its polls of the client
    connection and its pauses.  Exceptions are an explicit outcome, so the
    [try]/[except] of [event_stream] is a [catch]. *)

From Stdlib Require Import String Ascii ZArith List Bool Lia DecimalString.
From ExtLib Require Import Structures.Monad Structures.MonadExc.
Import ListNotations.
Import MonadNotation.

Open Scope list_scope.
Open Scope string_scope.
Open Scope Z_scope.
Open Scope monad_scope.

Set Warnings "-register-all,-notation-for-abbreviation".

(** ** Python values *)

(** The objects [response.json()] can return.  A [str] is a [string] with one
    character per code point; a [float] is carried by the text [json.dumps] prints
    for it (its [repr] when it is finite); a [dict] keeps its items in insertion
    order, keys distinct. *)
Inductive value : Type :=
| PyNone
| PyBool (b : bool)
| PyInt (z : Z)
| PyFloat (repr : string)
| PyStr (s : string)
| PyList (l : list value)
| PyDict (d : list (string * value)).

Definition LF : string := String (ascii_of_nat 10) EmptyString.
Definition DQ : string := String (ascii_of_nat 34) EmptyString.
Definition BS : string := String (ascii_of_nat 92) EmptyString.

(** [type(o).__name__] *)
Definition type_name (o : value) : string :=
  match o with
  | PyNone => "NoneType"
  | PyBool _ => "bool"
  | PyInt _ => "int"
  | PyFloat _ => "float"
  | PyStr _ => "str"
  | PyList _ => "list"
  | PyDict _ => "dict"
  end.

(** [bool(o)], as tested by [if not web_results] *)
Definition truthy (o : value) : bool :=
  match o with
  | PyNone => false
  | PyBool b => b
  | PyInt z => negb (z =? 0)
  | PyFloat r => negb (String.eqb r "0.0" || String.eqb r "-0.0")
  | PyStr s => negb (String.eqb s EmptyString)
  | PyList l => match l with [] => false | _ :: _ => true end
  | PyDict d => match d with [] => false | _ :: _ => true end
  end.

(** [str(n)] for an [int], as an f-string formats it *)
Definition str_int (z : Z) : string := NilZero.string_of_int (Z.to_int z).

(** [x or y] on integers: [body.count or 5] *)
Definition py_or (x y : Z) : Z := if x =? 0 then y else x.

Fixpoint dict_get (d : list (string * value)) (key : string) : option value :=
  match d with
  | [] => None
  | (k, v) :: rest => if String.eqb k key then Some v else dict_get rest key
  end.

(** The number of items [s[:stop]] keeps of a sequence of [len] items. *)
Definition slice_stop (len : nat) (stop : Z) : nat :=
  Z.to_nat (if stop <? 0 then Z.max 0 (Z.of_nat len + stop)
            else Z.min stop (Z.of_nat len)).

Definition slice_upto {A : Type} (l : list A) (stop : Z) : list A :=
  firstn (slice_stop (length l) stop) l.

(** ** Exceptions, responses, the world *)

Record Response : Type := mkResponse {
  status_code : Z;
  text : string;
  (** what [response.json()] gives: the decoded body, or the message of the
      decoding error *)
  json : string + value
}.

(** [response.is_success]: the status is a 2xx. *)
Definition is_success (response : Response) : bool :=
  (200 <=? status_code response) && (status_code response <=? 299).

Inductive exn_class : Type :=
| AttributeError | TypeError | KeyError | TransportError | JSONDecodeError.

(** [httpx.HTTPStatusError] carries the response; every other exception is
    kept as its class and its [str(e)]. *)
Inductive exn : Type :=
| HTTPStatusError (response : Response)
| PyException (cls : exn_class) (msg : string).

Inductive param : Type :=
| PStr (s : string)
| PInt (z : Z).

Record GetRequest : Type := mkGet {
  get_url : string;
  get_headers : list (string * string);
  get_params : list (string * param);
  get_timeout : Z
}.

(** What the provider does with a GET: no response at all, or a response. *)
Inductive reply : Type :=
| NoResponse (msg : string)
| Replied (r : Response).

(** The client connection: the answer of the k-th call of
    [request.is_disconnected()], counting from 0. *)
Record Request : Type := mkRequest {
  disconnected : nat -> bool
}.

Record World : Type := mkWorld {
  emitted : list string;     (* chunks yielded so far, oldest first *)
  gets : list GetRequest;    (* upstream GETs issued so far *)
  polls : nat;               (* calls of is_disconnected so far *)
  sleeps : nat               (* completed asyncio.sleep(0.1) *)
}.

Definition world0 : World := mkWorld [] [] 0 0.

Inductive Outcome (A : Type) : Type :=
| Returned (a : A)
| Raised (e : exn).
Arguments Returned {A} a.
Arguments Raised {A} e.

Definition Gen (A : Type) : Type := World -> Outcome A * World.

#[export] Instance Monad_Gen : Monad Gen := {|
  ret := fun _ a w => (Returned a, w);
  bind := fun _ _ c k w =>
    match c w with
    | (Returned a, w') => k a w'
    | (Raised e, w') => (Raised e, w')
    end
|}.

#[export] Instance Exc_Gen : MonadExc exn Gen := {|
  raise := fun _ e w => (Raised e, w);
  catch := fun _ c handler w =>
    match c w with
    | (Returned a, w') => (Returned a, w')
    | (Raised e, w') => handler e w'
    end
|}.

(** [yield chunk] *)
Definition yield (chunk : string) : Gen unit := fun w =>
  (Returned tt, mkWorld (emitted w ++ [chunk]) (gets w) (polls w) (sleeps w)).

(** [await request.is_disconnected()] *)
Definition is_disconnected (request : Request) : Gen bool := fun w =>
  (Returned (disconnected request (polls w)),
   mkWorld (emitted w) (gets w) (S (polls w)) (sleeps w)).

(** [await asyncio.sleep(0.1)] *)
Definition sleep : Gen unit := fun w =>
  (Returned tt, mkWorld (emitted w) (gets w) (polls w) (S (sleeps w))).

(** [o.get(key, default)]: only a [dict] has the method. *)
Definition py_get (o : value) (key : string) (default : value) : Gen value :=
  match o with
  | PyDict d =>
      ret (match dict_get d key with Some v => v | None => default end)
  | _ =>
      raise (PyException AttributeError
               ("'" ++ type_name o ++ "' object has no attribute 'get'"))
  end.

(** [for ... in o]: the items of a list, the characters of a str. *)
Definition py_iter (o : value) : Gen (list value) :=
  match o with
  | PyList l => ret l
  | PyStr s =>
      ret (map (fun c => PyStr (String c EmptyString)) (list_ascii_of_string s))
  | PyDict d => ret (map (fun kv => PyStr (fst kv)) d)
  | _ =>
      raise (PyException TypeError
               ("'" ++ type_name o ++ "' object is not iterable"))
  end.

(** The events of the stream, as the source writes them. *)
Definition ev_search_started : string :=
  "event: status" ++ LF ++ "data: Search started" ++ LF ++ LF.
Definition ev_no_results : string :=
  "event: status" ++ LF ++ "data: No results found" ++ LF ++ LF.
Definition ev_end_empty : string :=
  "event: end" ++ LF ++ "data: []" ++ LF ++ LF.
Definition ev_streaming : string :=
  "event: status" ++ LF ++ "data: Streaming results" ++ LF ++ LF.
Definition ev_end_of_stream : string :=
  "event: end" ++ LF ++ "data: end_of_stream" ++ LF ++ LF.
Definition ev_data (payload : string) : string :=
  "data: " ++ payload ++ LF ++ LF.
Definition ev_http_error (response : Response) : string :=
  "event: error" ++ LF ++ "data: HTTP error " ++ str_int (status_code response)
    ++ " - " ++ text response ++ LF ++ LF.
Definition ev_exception (msg : string) : string :=
  "event: error" ++ LF ++ "data: Exception: " ++ msg ++ LF ++ LF.

(** Reading a chunk back: its [event:] name, and the classes the
    specification speaks of. *)
Fixpoint startswith (s pre : string) {struct pre} : bool :=
  match pre with
  | EmptyString => true
  | String a pre' =>
      match s with
      | EmptyString => false
      | String b s' => Ascii.eqb a b && startswith s' pre'
      end
  end.

Definition is_data_event (chunk : string) : bool := startswith chunk "data: ".
Definition is_end_event (chunk : string) : bool :=
  startswith chunk ("event: end" ++ LF).
Definition is_error_event (chunk : string) : bool :=
  startswith chunk ("event: error" ++ LF).
Definition is_terminal (chunk : string) : bool :=
  is_end_event chunk || is_error_event chunk.

Definition data_events (chunks : list string) : list string :=
  filter is_data_event chunks.
Definition terminal_events (chunks : list string) : list string :=
  filter is_terminal chunks.
Definition error_events (chunks : list string) : list string :=
  filter is_error_event chunks.

(** [needle in haystack] *)
Definition contains (haystack needle : string) : Prop :=
  exists before after : string, haystack = (before ++ needle ++ after)%string.

(** ** [json.dumps]

    The serializer of Python's library with its defaults: items separated by
    a comma and a space, keys by a colon and a space, every character
    outside the printable ASCII range escaped.  The strings modelled here
    hold code points up to U+00FF, so the only numeric escapes that arise
    are of the form [\u00XX]. *)

Definition hex_digit (n : nat) : ascii :=
  nth n (list_ascii_of_string "0123456789abcdef") "0"%char.

Definition escape_char (c : ascii) : string :=
  let n := nat_of_ascii c in
  if (n =? 34)%nat then BS ++ DQ
  else if (n =? 92)%nat then BS ++ BS
  else if (n =? 10)%nat then BS ++ "n"
  else if (n =? 13)%nat then BS ++ "r"
  else if (n =? 9)%nat then BS ++ "t"
  else if (n =? 8)%nat then BS ++ "b"
  else if (n =? 12)%nat then BS ++ "f"
  else if ((32 <=? n) && (n <=? 126))%nat then String c EmptyString
  else BS ++ "u00" ++ String (hex_digit (n / 16))
                        (String (hex_digit (n mod 16)) EmptyString).

Fixpoint escape (s : string) : string :=
  match s with
  | EmptyString => EmptyString
  | String c rest => escape_char c ++ escape rest
  end.

Definition dumps_str (s : string) : string := DQ ++ escape s ++ DQ.

Fixpoint py_json_dumps (o : value) : string :=
  match o with
  | PyNone => "null"
  | PyBool true => "true"
  | PyBool false => "false"
  | PyInt z => str_int z
  | PyFloat r => r
  | PyStr s => dumps_str s
  | PyList l =>
      "[" ++ (fix items (l : list value) : string :=
                match l with
                | [] => EmptyString
                | x :: rest =>
                    match rest with
                    | [] => py_json_dumps x
                    | _ :: _ => py_json_dumps x ++ ", " ++ items rest
                    end
                end) l ++ "]"
  | PyDict d =>
      "{" ++ (fix items (d : list (string * value)) : string :=
                match d with
                | [] => EmptyString
                | (k, x) :: rest =>
                    match rest with
                    | [] => dumps_str k ++ ": " ++ py_json_dumps x
                    | _ :: _ =>
                        dumps_str k ++ ": " ++ py_json_dumps x ++ ", " ++ items rest
                    end
                end) d ++ "}"
  end.

(** ** The request model *)

Record SearchRequest : Type := mkSearchRequest {
  query : string;
  count : Z;
  language : string
}.

(** The default of [brave_search]'s [language] parameter. *)
Definition default_language : string := "en".

(** ** The relay *)

Section Relay.

(** The credential read from the environment at start-up. *)
Variable BRAVE_API_KEY : string.
(** The search provider: what it answers to a GET. *)
Variable network : GetRequest -> reply.
(** [json.dumps]. *)
Variable json_dumps : value -> string.
(** What [d[:stop]] raises on a [dict]: a [TypeError] or a [KeyError],
    depending on the version of the interpreter. *)
Variable dict_slice_error : Z -> exn.

(** [o[:stop]] *)
Definition py_slice (o : value) (stop : Z) : Gen value :=
  match o with
  | PyList l => ret (PyList (slice_upto l stop))
  | PyStr s =>
      ret (PyStr (string_of_list_ascii
                    (slice_upto (list_ascii_of_string s) stop)))
  | PyDict _ => raise (dict_slice_error stop)
  | _ =>
      raise (PyException TypeError
               ("'" ++ type_name o ++ "' object is not subscriptable"))
  end.

(** [await client.get(url, headers=..., params=...)] on a client built
    with [timeout]: the GET is issued, and either a response comes back or
    the transport fails. *)
Definition client_get (url : string) (headers : list (string * string))
    (params : list (string * param)) (timeout : Z) : Gen Response := fun w =>
  let req := mkGet url headers params timeout in
  let w' := mkWorld (emitted w) (gets w ++ [req]) (polls w) (sleeps w) in
  match network req with
  | NoResponse msg => (Raised (PyException TransportError msg), w')
  | Replied r => (Returned r, w')
  end.

(** [response.raise_for_status()]: httpx returns when [is_success] holds and
    raises [HTTPStatusError] otherwise. *)
Definition raise_for_status (response : Response) : Gen unit :=
  if is_success response then ret tt
  else raise (HTTPStatusError response).

(** [response.json()] *)
Definition response_json (response : Response) : Gen value :=
  match json response with
  | inr v => ret v
  | inl msg => raise (PyException JSONDecodeError msg)
  end.

Definition brave_search (query : string) (count : Z) (language : string)
    : Gen value :=
  let headers :=
    [("X-Subscription-Token", BRAVE_API_KEY);
     ("Accept", "application/json");
     ("Accept-Encoding", "gzip")] in
  let params :=
    [("q", PStr query);
     ("count", PInt count);
     ("search_lang", PStr language);
     ("text_decorations", PStr "true")] in
  response <- client_get "https://api.search.brave.com/res/v1/web/search"
                headers params 10 ;;
  raise_for_status response ;;
  response_json response.

(** The body of [for i, result in enumerate(...)], from index [i] on. *)
Fixpoint stream_results (request : Request) (i : Z) (items : list value)
    : Gen unit :=
  match items with
  | [] => ret tt
  | result :: rest =>
      title <- py_get result "title" (PyStr EmptyString) ;;
      description <- py_get result "description" (PyStr EmptyString) ;;
      url <- py_get result "url" (PyStr EmptyString) ;;
      let chunk := PyDict [("index", PyInt (i + 1));
                           ("title", title);
                           ("description", description);
                           ("url", url)] in
      yield (ev_data (json_dumps chunk)) ;;
      gone <- is_disconnected request ;;
      if gone : bool then ret tt
      else (sleep ;; stream_results request (i + 1) rest)
  end.

Definition event_stream (request : Request) (query : string) (count : Z)
    : Gen unit :=
  catch
    (yield ev_search_started ;;
     data <- brave_search query count default_language ;;
     web <- py_get data "web" (PyDict []) ;;
     web_results <- py_get web "results" (PyList []) ;;
     if negb (truthy web_results) then
       (yield ev_no_results ;;
        yield ev_end_empty)
     else
       (yield ev_streaming ;;
        sliced <- py_slice web_results count ;;
        items <- py_iter sliced ;;
        stream_results request 0 items ;;
        yield ev_end_of_stream))
    (fun e =>
       match e with
       | HTTPStatusError response => yield (ev_http_error response)
       | PyException _ msg => yield (ev_exception msg)
       end).

(** [POST /search]: the body of the streaming response. *)
Definition search (request : Request) (body : SearchRequest) : Gen unit :=
  event_stream request (query body) (py_or (count body) 5).

(** One request served from a fresh world. *)
Definition run (g : Gen unit) : World := snd (g world0).

End Relay.


(** ** Vocabulary of the statements *)

(** The list under [web.results], when the path resolves. *)
Definition web_results_of (data : value) : option value :=
  match data with
  | PyDict d =>
      match dict_get d "web" with
      | Some (PyDict w) => dict_get w "results"
      | _ => None
      end
  | _ => None
  end.

Definition is_dict (o : value) : bool :=
  match o with PyDict _ => true | _ => false end.

(** A result record read with the defaults of the translator. *)
Definition dict_field (o : value) (key : string) : value :=
  match o with
  | PyDict d => match dict_get d key with Some v => v | None => PyStr EmptyString end
  | _ => PyStr EmptyString
  end.

(** The record the translator serializes for [result] at 1-based [index]. *)
Definition record_chunk (index : Z) (result : value) : value :=
  PyDict [("index", PyInt index);
          ("title", dict_field result "title");
          ("description", dict_field result "description");
          ("url", dict_field result "url")].

(** The data events for [items], the first of them numbered [i + 1]. *)
Fixpoint frames_from (dumps : value -> string) (i : Z) (items : list value)
    : list string :=
  match items with
  | [] => []
  | result :: rest =>
      ev_data (dumps (record_chunk (i + 1) result)) :: frames_from dumps (i + 1) rest
  end.

(** How many of [items] are served when the polls of the connection are
    answered from poll [p] on: the loop stops after the first item whose
    poll reports the client gone. *)
Fixpoint served (request : Request) (p : nat) (items : list value) : nat :=
  match items with
  | [] => O
  | _ :: rest =>
      if disconnected request p then 1%nat
      else S (served request (S p) rest)
  end.

(** What is written after the k-th data event. *)
Fixpoint after_data (k : nat) (chunks : list string) : list string :=
  match k with
  | O => chunks
  | S k' =>
      match chunks with
      | [] => []
      | c :: rest =>
          if is_data_event c then after_data k' rest else after_data k rest
      end
  end.

(** The GET [brave_search] issues. *)
Definition upstream_get (key query : string) (count : Z) (language : string)
    : GetRequest :=
  mkGet "https://api.search.brave.com/res/v1/web/search"
    [("X-Subscription-Token", key);
     ("Accept", "application/json");
     ("Accept-Encoding", "gzip")]
    [("q", PStr query);
     ("count", PInt count);
     ("search_lang", PStr language);
     ("text_decorations", PStr "true")]
    10.

(** Exactly one terminal marker, and it is the last chunk. *)
Definition ends_once (chunks : list string) : Prop :=
  exists front last,
    chunks = (front ++ [last])%list
    /\ is_terminal last = true
    /\ terminal_events front = [].

(** ** Sample collaborators *)

Definition still_connected : Request := mkRequest (fun _ => false).
Definition gone_at (k : nat) : Request := mkRequest (fun p => Nat.leb k p).
Definition ok_response (v : value) : Response :=
  mkResponse 200 EmptyString (inr v).
Definition results_body (rs : list value) : value :=
  PyDict [("web", PyDict [("results", PyList rs)])].
Definition rec1 : value :=
  PyDict [("title", PyStr "A"); ("url", PyStr "http://a")].
Definition rec2 : value :=
  PyDict [("title", PyStr "B"); ("description", PyStr "b")].
Definition rec3 : value := PyDict [].
Definition answers (r : Response) : GetRequest -> reply := fun _ => Replied r.
Definition unhashable_slice (stop : Z) : exn :=
  PyException TypeError "unhashable type: 'slice'".
Definition too_many_requests : Response :=
  mkResponse 429 "slow down" (inl "Expecting value").
Definition three_results : list value := [rec1; rec2; rec3].
Definition three_found : Response := ok_response (results_body three_results).
Definition none_found : Response := ok_response (results_body []).
Definition no_web_key : Response := ok_response (PyDict [("query", PyDict [])]).
Definition null_web : Response := ok_response (PyDict [("web", PyNone)]).

(** A named parameter of a GET. *)
Fixpoint get_param (ps : list (string * param)) (name : string) : option param :=
  match ps with
  | [] => None
  | (k, v) :: rest => if String.eqb k name then Some v else get_param rest name
  end.

(** ** Vocabulary of the edge cases *)

(** The characters [json.dumps] leaves unescaped: printable ASCII. *)
Definition printable (c : ascii) : bool :=
  ((32 <=? nat_of_ascii c) && (nat_of_ascii c <=? 126))%nat.

Fixpoint all_printable (s : string) : bool :=
  match s with
  | EmptyString => true
  | String c rest => printable c && all_printable rest
  end.

(** Every [float] inside [v] is carried by a printable text, as every
    [repr] of a float is. *)
Fixpoint floats_printable (v : value) : bool :=
  match v with
  | PyFloat r => all_printable r
  | PyList l => forallb floats_printable l
  | PyDict d =>
      (fix items (d : list (string * value)) : bool :=
         match d with
         | [] => true
         | (_, x) :: rest => floats_printable x && items rest
         end) d
  | _ => true
  end.

(** The values a record's [title], [description] and [url] are read from. *)
Definition same_fields (r1 r2 : value) : Prop :=
  dict_field r1 "title" = dict_field r2 "title"
  /\ dict_field r1 "description" = dict_field r2 "description"
  /\ dict_field r1 "url" = dict_field r2 "url".

(** Values that are truthy or not without being sequences or mappings. *)
Definition is_scalar (o : value) : bool :=
  match o with
  | PyBool _ | PyInt _ | PyFloat _ => true
  | _ => false
  end.

(** A data event whose payload is printable ASCII: one [data:] line, closed
    by the blank line of the frame and holding no other line break. *)
Definition single_line_data (chunk : string) : Prop :=
  exists payload,
    chunk = ev_data payload
    /\ all_printable payload = true
    /\ ~ contains payload LF.

Definition connection_lost : GetRequest -> reply :=
  fun _ => NoResponse "All connection attempts failed".
Definition not_json : Response :=
  mkResponse 200 "<html>" (inl "Expecting value: line 1 column 1 (char 0)").
Definition null_results : Response :=
  ok_response (PyDict [("web", PyDict [("results", PyNone)])]).
Definition count_as_results : Response :=
  ok_response (PyDict [("web", PyDict [("results", PyInt 3)])]).
Definition text_as_results : Response :=
  ok_response (PyDict [("web", PyDict [("results", PyStr "none")])]).
Definition mixed_results : list value := [rec1; rec2; PyStr "ad"; rec3].
Definition mixed_found : Response := ok_response (results_body mixed_results).
Definition rec1_verbose : value :=
  PyDict [("title", PyStr "A"); ("age", PyStr "2 days");
          ("url", PyStr "http://a"); ("language", PyStr "en")].
Definition one_found : Response := ok_response (results_body [rec1]).
Definition verbose_found : Response :=
  ok_response (results_body [rec1_verbose]).
Definition rec_multiline : value :=
  PyDict [("title", PyStr ("Breaking" ++ LF ++ LF ++ "event: end" ++ LF));
          ("description", PyStr (DQ ++ "caf" ++ String (ascii_of_nat 233) DQ))].
Definition multiline_found : Response :=
  ok_response (results_body [rec_multiline; rec2]).
Definition server_error : Response :=
  mkResponse 503 "upstream down" (inl "Expecting value").

(** ** The stream as a function of the provider's answer

    What a client that stays connected is sent, written without the
    generator: no world, no polls, no exception, only the count and the
    answer to the one GET. *)

Definition no_get_attribute (o : value) : string :=
  "'" ++ type_name o ++ "' object has no attribute 'get'".

(** The [error] chunk the two [except] clauses make of an exception. *)
Definition error_chunk (e : exn) : string :=
  match e with
  | HTTPStatusError response => ev_http_error response
  | PyException _ msg => ev_exception msg
  end.

(** The items up to the first one that is not a record, and that one. *)
Fixpoint leading_records (items : list value) : list value :=
  match items with
  | [] => []
  | r :: rest => if is_dict r then r :: leading_records rest else []
  end.

Fixpoint first_non_record (items : list value) : option value :=
  match items with
  | [] => None
  | r :: rest => if is_dict r then first_non_record rest else Some r
  end.

Definition connected_items (dumps : value -> string) (items : list value)
    : list string :=
  frames_from dumps 0 (leading_records items)
  ++ [match first_non_record items with
      | None => ev_end_of_stream
      | Some bad => ev_exception (no_get_attribute bad)
      end].

Definition connected_results (dumps : value -> string)
    (slice_error : Z -> exn) (web_results : value) (count : Z) : list string :=
  match web_results with
  | PyList l => connected_items dumps (slice_upto l count)
  | PyStr s =>
      connected_items dumps
        (map (fun c => PyStr (String c EmptyString))
           (slice_upto (list_ascii_of_string s) count))
  | PyDict _ => [error_chunk (slice_error count)]
  | _ =>
      [ev_exception ("'" ++ type_name web_results
                     ++ "' object is not subscriptable")]
  end.

Definition connected_body (dumps : value -> string) (slice_error : Z -> exn)
    (data : value) (count : Z) : list string :=
  match data with
  | PyDict d =>
      match (match dict_get d "web" with Some v => v | None => PyDict [] end) with
      | PyDict w =>
          let web_results :=
            match dict_get w "results" with Some v => v | None => PyList [] end in
          if truthy web_results
          then ev_streaming :: connected_results dumps slice_error web_results count
          else [ev_no_results; ev_end_empty]
      | web => [ev_exception (no_get_attribute web)]
      end
  | _ => [ev_exception (no_get_attribute data)]
  end.

Definition connected_stream (dumps : value -> string) (slice_error : Z -> exn)
    (count : Z) (answer : reply) : list string :=
  ev_search_started ::
  match answer with
  | NoResponse msg => [ev_exception msg]
  | Replied r =>
      if is_success r then
        match json r with
        | inl msg => [ev_exception msg]
        | inr data => connected_body dumps slice_error data count
        end
      else [ev_http_error r]
  end.

(** A provider that answers only the GETs made with the 10 second timeout. *)
Definition picky_network (r : Response) : GetRequest -> reply :=
  fun g => if get_timeout g =? 10 then Replied r
           else NoResponse "unexpected request".

(** ** Sanity checks of the serializer *)

Example dumps_scalars :
  py_json_dumps (PyList [PyInt 1; PyInt (-20); PyNone; PyBool true; PyFloat "1.5"])
  = "[1, -20, null, true, 1.5]".
Proof. reflexivity. Qed.

Example dumps_escapes :
  py_json_dumps (PyStr (String (ascii_of_nat 233) ("x" ++ LF ++ DQ)))
  = DQ ++ BS ++ "u00e9x" ++ BS ++ "n" ++ BS ++ DQ ++ DQ.
Proof. reflexivity. Qed.

Example slice_examples :
  slice_upto [1; 2; 3] 2 = [1; 2]
  /\ slice_upto [1; 2; 3] 7 = [1; 2; 3]
  /\ slice_upto [1; 2; 3] 0 = []
  /\ slice_upto [1; 2; 3] (-1) = [1; 2]
  /\ slice_upto [1; 2; 3] (-5) = [].
Proof. repeat split. Qed.

(** ** Classifying the chunks *)

Lemma data_event_is_data (payload : string) :
  is_data_event (ev_data payload) = true.
Proof. reflexivity. Qed.

Lemma data_event_not_terminal (payload : string) :
  is_terminal (ev_data payload) = false.
Proof. reflexivity. Qed.

Lemma http_error_is_terminal (r : Response) :
  is_terminal (ev_http_error r) = true.
Proof. reflexivity. Qed.

Lemma exception_is_terminal (msg : string) :
  is_terminal (ev_exception msg) = true.
Proof. reflexivity. Qed.

Lemma frames_from_length dumps (items : list value) :
  forall i, length (frames_from dumps i items) = length items.
Proof.
  induction items as [|r rest IH]; intros i; simpl; [reflexivity|].
  now rewrite IH.
Qed.

Lemma frames_from_nth dumps (items : list value) :
  forall i k r,
    nth_error items k = Some r ->
    nth_error (frames_from dumps i items) k
    = Some (ev_data (dumps (record_chunk (i + Z.of_nat (S k)) r))).
Proof.
  induction items as [|x rest IH]; intros i k r H.
  - destruct k; discriminate.
  - destruct k as [|k]; cbn [nth_error frames_from] in *.
    + injection H as ->. reflexivity.
    + rewrite (IH (i + 1) k r H).
      replace (i + 1 + Z.of_nat (S k)) with (i + Z.of_nat (S (S k))) by lia.
      reflexivity.
Qed.

Lemma frames_from_data dumps (items : list value) :
  forall i, data_events (frames_from dumps i items) = frames_from dumps i items.
Proof.
  induction items as [|r rest IH]; intros i; [reflexivity|].
  cbn [frames_from data_events filter]. rewrite data_event_is_data.
  f_equal. apply IH.
Qed.

Lemma served_connected (request : Request) (items : list value) :
  (forall k, disconnected request k = false) ->
  forall p, served request p items = length items.
Proof.
  intros H. induction items as [|r rest IH]; intros p; simpl; [reflexivity|].
  rewrite H. now rewrite IH.
Qed.

Lemma forallb_firstn {A : Type} (f : A -> bool) (l : list A) :
  forallb f l = true -> forall n, forallb f (firstn n l) = true.
Proof.
  induction l as [|x l IH]; intros H n; destruct n; try reflexivity.
  cbn [forallb firstn] in *. apply andb_prop in H as [Hx Hl].
  now rewrite Hx, (IH Hl).
Qed.

Lemma slice_upto_length {A : Type} (l : list A) (stop : Z) :
  length (slice_upto l stop) = slice_stop (length l) stop.
Proof.
  unfold slice_upto. rewrite length_firstn. apply Nat.min_l.
  unfold slice_stop. destruct (stop <? 0) eqn:E; lia.
Qed.

Lemma data_events_app (a b : list string) :
  data_events (a ++ b) = (data_events a ++ data_events b)%list.
Proof. apply filter_app. Qed.

Lemma served_first_gone (request : Request) (items : list value) :
  forall k p,
    (forall j, (j < k)%nat -> disconnected request (p + j) = false) ->
    disconnected request (p + k) = true ->
    (k < length items)%nat ->
    served request p items = S k.
Proof.
  induction items as [|r rest IH]; intros k p Hbefore Hat Hlen.
  - cbn in Hlen. lia.
  - cbn [served]. destruct k as [|k].
    + rewrite Nat.add_0_r in Hat. now rewrite Hat.
    + rewrite <- (Nat.add_0_r p) at 1. rewrite (Hbefore O) by lia.
      f_equal. apply IH.
      * intros j Hj. replace (S p + j)%nat with (p + S j)%nat by lia.
        apply Hbefore. lia.
      * replace (S p + k)%nat with (p + S k)%nat by lia. exact Hat.
      * cbn in Hlen. lia.
Qed.

(** After as many data events as [items] has, what is left is what follows
    their frames. *)
Lemma after_data_frames dumps (items : list value) (tail : list string) :
  forall i,
    after_data (length items) (frames_from dumps i items ++ tail) = tail.
Proof.
  induction items as [|r rest IH]; intros i.
  - destruct tail; reflexivity.
  - cbn [length frames_from app after_data]. rewrite data_event_is_data.
    apply IH.
Qed.

(** ** Facts about the relay *)

Arguments ev_data : simpl never.
Arguments ev_http_error : simpl never.
Arguments ev_exception : simpl never.

Section RelayFacts.

Variable BRAVE_API_KEY : string.
Variable network : GetRequest -> reply.
Variable json_dumps : value -> string.
Variable dict_slice_error : Z -> exn.

Local Notation stream_results := (stream_results json_dumps).
Local Notation event_stream :=
  (event_stream BRAVE_API_KEY network json_dumps dict_slice_error).
Local Notation search :=
  (search BRAVE_API_KEY network json_dumps dict_slice_error).

(** One round of the loop on a result record. *)
Lemma stream_results_step (request : Request) (i : Z)
    (d : list (string * value)) (rest : list value) (w : World) :
  stream_results request i (PyDict d :: rest) w
  = let out := (emitted w
                ++ [ev_data (json_dumps (record_chunk (i + 1) (PyDict d)))])%list in
    if disconnected request (polls w)
    then (Returned tt, mkWorld out (gets w) (S (polls w)) (sleeps w))
    else stream_results request (i + 1) rest
           (mkWorld out (gets w) (S (polls w)) (S (sleeps w))).
Proof.
  cbv zeta. cbn [stream_results]. cbn.
  destruct (disconnected request (polls w)); reflexivity.
Qed.

(** A result that is not a record stops the loop with an [AttributeError]
    before anything is written for it. *)
Lemma stream_results_fault (request : Request) (i : Z) (r : value)
    (rest : list value) (w : World) :
  is_dict r = false ->
  stream_results request i (r :: rest) w
  = (Raised (PyException AttributeError
               ("'" ++ type_name r ++ "' object has no attribute 'get'")), w).
Proof. destruct r; intros H; try discriminate H; reflexivity. Qed.

(** The loop over result records never raises: it writes the data events
    of the items it serves and nothing else. *)
Lemma stream_results_records (request : Request) (items : list value) :
  forallb is_dict items = true ->
  forall i w, exists p s,
    stream_results request i items w
    = (Returned tt,
       mkWorld (emitted w
                ++ frames_from json_dumps i
                     (firstn (served request (polls w) items) items))
         (gets w) p s).
Proof.
  induction items as [|r rest IH]; intros Hd i w.
  - exists (polls w), (sleeps w). cbn. rewrite app_nil_r.
    destruct w; reflexivity.
  - cbn [forallb] in Hd. apply andb_prop in Hd as [Hr Hrest].
    destruct r; try discriminate Hr.
    rewrite stream_results_step. cbn [served]. cbv zeta.
    destruct (disconnected request (polls w)) eqn:Hp.
    + eexists _, _. reflexivity.
    + destruct (IH Hrest (i + 1)
                  (mkWorld (emitted w ++ [ev_data (json_dumps (record_chunk (i + 1) (PyDict d)))])
                     (gets w) (S (polls w)) (S (sleeps w)))) as (p & s & H).
      exists p, s. rewrite H. cbn [emitted gets polls firstn frames_from].
      rewrite <- app_assoc. reflexivity.
Qed.

(** Whatever the items are, the loop writes data events only and issues no
    GET. *)
Lemma stream_results_writes_data (request : Request) (items : list value) :
  forall i w,
    exists ds,
      emitted (snd (stream_results request i items w)) = (emitted w ++ ds)%list
      /\ data_events ds = ds
      /\ terminal_events ds = []
      /\ gets (snd (stream_results request i items w)) = gets w.
Proof.
  induction items as [|r rest IH]; intros i w.
  - exists []. cbn. rewrite app_nil_r. auto.
  - destruct (is_dict r) eqn:Hr.
    + destruct r; try discriminate Hr.
      rewrite stream_results_step. cbv zeta.
      destruct (disconnected request (polls w)).
      * eexists [_]. cbn [snd emitted gets]. repeat split.
      * destruct (IH (i + 1)
                    (mkWorld (emitted w ++ [ev_data (json_dumps (record_chunk (i + 1) (PyDict d)))])
                       (gets w) (S (polls w)) (S (sleeps w)))) as (ds & H1 & H2 & H3 & H4).
        cbn [emitted gets] in H1, H4.
        exists (ev_data (json_dumps (record_chunk (i + 1) (PyDict d))) :: ds).
        rewrite H1, H4, <- app_assoc. repeat split.
        -- cbn [data_events filter]. rewrite data_event_is_data.
           f_equal. exact H2.
        -- cbn [terminal_events filter]. rewrite data_event_not_terminal.
           exact H3.
    + rewrite (stream_results_fault request i r rest w Hr).
      exists []. cbn. rewrite app_nil_r. auto.
Qed.

(** [brave_search] issues exactly one GET and turns the provider's answer
    into a value or an exception. *)
Lemma brave_search_run (q : string) (c : Z) (lang : string) (w : World) :
  brave_search BRAVE_API_KEY network q c lang w
  = let req := upstream_get BRAVE_API_KEY q c lang in
    let w' := mkWorld (emitted w) (gets w ++ [req]) (polls w) (sleeps w) in
    match network req with
    | NoResponse msg => (Raised (PyException TransportError msg), w')
    | Replied r =>
        if is_success r then
          match json r with
          | inl msg => (Raised (PyException JSONDecodeError msg), w')
          | inr v => (Returned v, w')
          end
        else (Raised (HTTPStatusError r), w')
    end.
Proof.
  unfold brave_search, client_get, raise_for_status, response_json, upstream_get.
  cbn. destruct (network _) as [msg|r]; [reflexivity|].
  destruct (is_success r); [|reflexivity].
  cbn. destruct (json r); reflexivity.
Qed.

Ltac enter_stream :=
  unfold run, event_stream;
  cbn [catch bind Exc_Gen Monad_Gen];
  unfold yield at 1; cbn [world0 emitted gets polls sleeps app];
  rewrite brave_search_run; cbv zeta;
  cbn [emitted gets polls sleeps app].

Lemma event_stream_http_error (request : Request) (q : string) (c : Z)
    (r : Response) :
  network (upstream_get BRAVE_API_KEY q c default_language) = Replied r ->
  is_success r = false ->
  run (event_stream request q c)
  = mkWorld [ev_search_started; ev_http_error r]
      [upstream_get BRAVE_API_KEY q c default_language] 0 0.
Proof.
  intros Hnet Hs. enter_stream. rewrite Hnet, Hs. reflexivity.
Qed.

Lemma event_stream_no_response (request : Request) (q : string) (c : Z)
    (msg : string) :
  network (upstream_get BRAVE_API_KEY q c default_language) = NoResponse msg ->
  run (event_stream request q c)
  = mkWorld [ev_search_started; ev_exception msg]
      [upstream_get BRAVE_API_KEY q c default_language] 0 0.
Proof.
  intros Hnet. enter_stream. rewrite Hnet. reflexivity.
Qed.

Lemma event_stream_undecodable (request : Request) (q : string) (c : Z)
    (r : Response) (msg : string) :
  network (upstream_get BRAVE_API_KEY q c default_language) = Replied r ->
  is_success r = true ->
  json r = inl msg ->
  run (event_stream request q c)
  = mkWorld [ev_search_started; ev_exception msg]
      [upstream_get BRAVE_API_KEY q c default_language] 0 0.
Proof.
  intros Hnet Hs Hj. enter_stream. rewrite Hnet, Hs, Hj. reflexivity.
Qed.

(** A decoded body in which [web.results] resolves to something falsy, or
    in which a missing key lets the default stand, takes the EMPTY path. *)
Lemma event_stream_empty (request : Request) (q : string) (c : Z)
    (r : Response) (d : list (string * value)) (w : list (string * value))
    (web_results : value) :
  network (upstream_get BRAVE_API_KEY q c default_language) = Replied r ->
  is_success r = true ->
  json r = inr (PyDict d) ->
  match dict_get d "web" with Some v => v | None => PyDict [] end = PyDict w ->
  match dict_get w "results" with Some v => v | None => PyList [] end
  = web_results ->
  truthy web_results = false ->
  run (event_stream request q c)
  = mkWorld [ev_search_started; ev_no_results; ev_end_empty]
      [upstream_get BRAVE_API_KEY q c default_language] 0 0.
Proof.
  intros Hnet Hs Hj Hw Hr Ht. enter_stream. rewrite Hnet, Hs, Hj.
  cbn [py_get ret Monad_Gen]. rewrite Hw.
  cbn [py_get ret Monad_Gen]. rewrite Hr, Ht. reflexivity.
Qed.

(** A decoded body whose [web.results] is a non-empty list of records takes
    the STREAMING path: the records served, then [end_of_stream]. *)
Lemma event_stream_streaming (request : Request) (q : string) (c : Z)
    (r : Response) (data : value) (rs : list value) :
  network (upstream_get BRAVE_API_KEY q c default_language) = Replied r ->
  is_success r = true ->
  json r = inr data ->
  web_results_of data = Some (PyList rs) ->
  rs <> [] ->
  forallb is_dict rs = true ->
  exists p s,
    run (event_stream request q c)
    = mkWorld
        ([ev_search_started; ev_streaming]
         ++ frames_from json_dumps 0
              (firstn (served request 0 (slice_upto rs c)) (slice_upto rs c))
         ++ [ev_end_of_stream])
        [upstream_get BRAVE_API_KEY q c default_language] p s.
Proof.
  intros Hnet Hs Hj Hw Hne Hd.
  destruct data as [| | | | | |d]; try discriminate Hw.
  cbn [web_results_of] in Hw.
  destruct (dict_get d "web") as [[| | | | | |w]|] eqn:Hweb; try discriminate Hw.
  enter_stream. rewrite Hnet, Hs, Hj.
  cbn [py_get ret Monad_Gen]. rewrite Hweb.
  cbn [py_get ret Monad_Gen]. rewrite Hw.
  destruct rs as [|r0 rs']; [congruence|].
  cbn [truthy negb]. unfold yield at 1.
  cbn [py_slice py_iter ret Monad_Gen emitted gets polls sleeps app].
  assert (Hsl : forallb is_dict (slice_upto (r0 :: rs') c) = true)
    by (apply forallb_firstn; exact Hd).
  match goal with
  | |- context [stream_results request 0 ?items ?w0] =>
      destruct (stream_results_records request items Hsl 0 w0) as (p & s & H)
  end.
  rewrite H. exists p, s. unfold yield. cbn [snd emitted gets polls sleeps].
  rewrite <- app_assoc. reflexivity.
Qed.

Ltac close_stream :=
  unfold yield; cbn [snd emitted gets polls sleeps app];
  eexists _, _, _; split; [reflexivity|]; split; reflexivity.

(** Whatever the provider answers and whatever shape the decoded body has,
    the stream is written by one GET and ends with one terminal marker. *)
Lemma event_stream_shape (request : Request) (q : string) (c : Z) :
  exists front last p s,
    run (event_stream request q c)
    = mkWorld (front ++ [last])
        [upstream_get BRAVE_API_KEY q c default_language] p s
    /\ is_terminal last = true
    /\ terminal_events front = [].
Proof.
  enter_stream.
  destruct (network _) as [msg|r].
  { exists [ev_search_started]. close_stream. }
  destruct (is_success r).
  2: { exists [ev_search_started]. close_stream. }
  destruct (json r) as [msg|data].
  { exists [ev_search_started]. close_stream. }
  destruct data as [| | | | | |d]; cbn [py_get ret raise Monad_Gen Exc_Gen type_name];
    try (exists [ev_search_started]; close_stream).
  destruct (match dict_get d "web" with Some v => v | None => PyDict [] end)
    as [| | | | | |w]; cbn [py_get ret raise Monad_Gen Exc_Gen type_name];
    try (exists [ev_search_started]; close_stream).
  destruct (match dict_get w "results" with Some v => v | None => PyList [] end)
    as [| | | | | |] eqn:Hres.
  all: destruct (truthy _) eqn:Ht; cbn [negb];
    [| exists [ev_search_started; ev_no_results]; close_stream ].
  all: unfold yield at 1;
    cbn [py_slice py_iter ret raise Monad_Gen Exc_Gen type_name
         emitted gets polls sleeps app];
    try (exists [ev_search_started; ev_streaming]; close_stream).
  - (* a str: its characters are iterated *)
    match goal with
    | |- context [stream_results request 0 ?items ?w0] =>
        destruct (stream_results_writes_data request items 0 w0)
          as (ds & H1 & H2 & H3 & H4);
        destruct (stream_results request 0 items w0) as [o w1]
    end.
    cbn [snd emitted gets] in H1, H4.
    exists ([ev_search_started; ev_streaming] ++ ds)%list.
    destruct o as [[]|[resp|cls msg]]; unfold yield;
      cbn [snd emitted gets polls sleeps]; rewrite H1, H4;
      eexists _, _, _; (split; [reflexivity|]); (split; [reflexivity|]);
      cbn; exact H3.
  - (* a list *)
    match goal with
    | |- context [stream_results request 0 ?items ?w0] =>
        destruct (stream_results_writes_data request items 0 w0)
          as (ds & H1 & H2 & H3 & H4);
        destruct (stream_results request 0 items w0) as [o w1]
    end.
    cbn [snd emitted gets] in H1, H4.
    exists ([ev_search_started; ev_streaming] ++ ds)%list.
    destruct o as [[]|[resp|cls msg]]; unfold yield;
      cbn [snd emitted gets polls sleeps]; rewrite H1, H4;
      eexists _, _, _; (split; [reflexivity|]); (split; [reflexivity|]);
      cbn; exact H3.
  - (* a dict cannot be sliced *)
    exists [ev_search_started; ev_streaming].
    destruct (dict_slice_error c) as [resp|cls msg]; close_stream.
Qed.

Lemma event_stream_zero_results (request : Request) (q : string) (c : Z)
    (r : Response) (data : value) :
  network (upstream_get BRAVE_API_KEY q c default_language) = Replied r ->
  is_success r = true ->
  json r = inr data ->
  web_results_of data = Some (PyList []) ->
  run (event_stream request q c)
  = mkWorld [ev_search_started; ev_no_results; ev_end_empty]
      [upstream_get BRAVE_API_KEY q c default_language] 0 0.
Proof.
  intros Hnet Hs Hj Hw.
  destruct data as [| | | | | |d]; try discriminate Hw.
  cbn [web_results_of] in Hw.
  destruct (dict_get d "web") as [[| | | | | |w]|] eqn:Hweb; try discriminate Hw.
  apply (event_stream_empty request q c r d w (PyList [])); auto.
  - now rewrite Hweb.
  - now rewrite Hw.
Qed.

(** With the client connected throughout, every record of the slice is
    served. *)
Lemma event_stream_all_served (request : Request) (q : string) (c : Z)
    (r : Response) (data : value) (rs : list value) :
  network (upstream_get BRAVE_API_KEY q c default_language) = Replied r ->
  is_success r = true ->
  json r = inr data ->
  web_results_of data = Some (PyList rs) ->
  forallb is_dict rs = true ->
  (forall k, disconnected request k = false) ->
  data_events (emitted (run (event_stream request q c)))
  = frames_from json_dumps 0 (slice_upto rs c)
  /\ (rs <> [] ->
      emitted (run (event_stream request q c))
      = ([ev_search_started; ev_streaming]
         ++ frames_from json_dumps 0 (slice_upto rs c)
         ++ [ev_end_of_stream])%list).
Proof.
  intros Hnet Hs Hj Hw Hd Hc.
  destruct rs as [|r0 rs'].
  - rewrite (event_stream_zero_results request q c r data Hnet Hs Hj Hw).
    unfold slice_upto. rewrite firstn_nil.
    split; [reflexivity | congruence].
  - destruct (event_stream_streaming request q c r data (r0 :: rs')
                Hnet Hs Hj Hw ltac:(discriminate) Hd) as (p & s & H).
    rewrite H. cbn [emitted].
    rewrite (served_connected request _ Hc), firstn_all.
    split; [|reflexivity].
    rewrite data_events_app, data_events_app, frames_from_data.
    cbn. now rewrite app_nil_r.
Qed.

(** The endpoint always issues the same single GET, whatever [language] the
    body carries. *)
Lemma search_one_get (request : Request) (body : SearchRequest) :
  gets (run (search request body))
  = [upstream_get BRAVE_API_KEY (query body) (py_or (count body) 5)
       default_language].
Proof.
  unfold search.
  destruct (event_stream_shape request (query body) (py_or (count body) 5))
    as (front & last & p & s & H & _).
  now rewrite H.
Qed.

Lemma py_or_nonzero (x y : Z) : x <> 0 -> py_or x y = x.
Proof. intros H. unfold py_or. destruct (Z.eqb_spec x 0); congruence. Qed.

(** C4. When the provider returns [n] result records and the request asks
    for [count = c > 0], with the client connected throughout, the stream
    carries [min n c] data events; the one at position [i] (from 0) is the
    frame of the record the provider put at position [i], numbered
    [i + 1]: indices run 1, 2, ... in emission order, in upstream order. *)
Theorem data_events_follow_upstream (request : Request) (body : SearchRequest)
    (r : Response) (data : value) (rs : list value) :
  (forall g, network g = Replied r) ->
  is_success r = true ->
  json r = inr data ->
  web_results_of data = Some (PyList rs) ->
  forallb is_dict rs = true ->
  (forall k, disconnected request k = false) ->
  0 < count body ->
  let sent := data_events (emitted (run (search request body))) in
  length sent = Nat.min (length rs) (Z.to_nat (count body))
  /\ forall i res,
       (i < Nat.min (length rs) (Z.to_nat (count body)))%nat ->
       nth_error rs i = Some res ->
       nth_error sent i
       = Some (ev_data (json_dumps (record_chunk (Z.of_nat i + 1) res))).
Proof.
  intros Hnet Hs Hj Hw Hd Hc Hpos sent. subst sent. unfold search.
  rewrite py_or_nonzero by lia.
  destruct (event_stream_all_served request (query body) (count body) r data rs
              (Hnet _) Hs Hj Hw Hd Hc) as [H _].
  rewrite H. split.
  - rewrite frames_from_length, slice_upto_length. unfold slice_stop.
    destruct (Z.ltb_spec (count body) 0); lia.
  - intros i res Hi Hres.
    replace (Z.of_nat i + 1) with (0 + Z.of_nat (S i)) by lia.
    apply frames_from_nth. unfold slice_upto, slice_stop.
    rewrite nth_error_firstn.
    destruct (Z.ltb_spec (count body) 0); [lia|].
    destruct (Nat.ltb_spec i (Z.to_nat (Z.min (count body) (Z.of_nat (length rs)))));
      [exact Hres | lia].
Qed.

(** C9. A negative [count = c] is accepted by the request model and reaches
    the slice unchanged: of [n] result records, with the client connected
    throughout, [max 0 (n + c)] data events are emitted. *)
Theorem negative_count_drops_from_end (request : Request) (q lang : string)
    (c : Z) (r : Response) (data : value) (rs : list value) :
  (forall g, network g = Replied r) ->
  is_success r = true ->
  json r = inr data ->
  web_results_of data = Some (PyList rs) ->
  forallb is_dict rs = true ->
  (forall k, disconnected request k = false) ->
  c < 0 ->
  let body := mkSearchRequest q c lang in
  count body = c
  /\ length (data_events (emitted (run (search request body))))
     = Z.to_nat (Z.max 0 (Z.of_nat (length rs) + c)).
Proof.
  intros Hnet Hs Hj Hw Hd Hc Hneg body. split; [reflexivity|].
  unfold search, body. cbn [query count].
  rewrite py_or_nonzero by lia.
  destruct (event_stream_all_served request q c r data rs
              (Hnet _) Hs Hj Hw Hd Hc) as [H _].
  rewrite H, frames_from_length, slice_upto_length. unfold slice_stop.
  destruct (Z.ltb_spec c 0); [reflexivity | lia].
Qed.

(** C3, as the code has it. A request with [count = 0] is served with the
    default count 5: of [n] result records, with the client connected
    throughout, [min n 5] data events are emitted, and when [n >= 1] the
    stream ends with [end_of_stream].  The translator itself, called with
    count 0 on [n >= 1] records, writes no data event and ends with
    [end_of_stream]. *)
Theorem zero_count_served_as_five (request : Request) (body : SearchRequest)
    (r : Response) (data : value) (rs : list value) :
  (forall g, network g = Replied r) ->
  is_success r = true ->
  json r = inr data ->
  web_results_of data = Some (PyList rs) ->
  forallb is_dict rs = true ->
  (forall k, disconnected request k = false) ->
  count body = 0 ->
  length (data_events (emitted (run (search request body))))
  = Nat.min (length rs) 5
  /\ (rs <> [] ->
      exists front,
        emitted (run (search request body))
        = (front ++ [ev_end_of_stream])%list)
  /\ (rs <> [] ->
      emitted (run (event_stream request (query body) 0))
      = [ev_search_started; ev_streaming; ev_end_of_stream]).
Proof.
  intros Hnet Hs Hj Hw Hd Hc Hzero. unfold search. rewrite Hzero.
  change (py_or 0 5) with 5.
  destruct (event_stream_all_served request (query body) 5 r data rs
              (Hnet _) Hs Hj Hw Hd Hc) as [H5 E5].
  destruct (event_stream_all_served request (query body) 0 r data rs
              (Hnet _) Hs Hj Hw Hd Hc) as [_ E0].
  split; [|split].
  - rewrite H5, frames_from_length, slice_upto_length. unfold slice_stop.
    cbn [Z.ltb Z.compare]. lia.
  - intros Hne. rewrite (E5 Hne).
    exists ([ev_search_started; ev_streaming]
            ++ frames_from json_dumps 0 (slice_upto rs 5))%list.
    now rewrite <- app_assoc.
  - intros Hne. rewrite (E0 Hne). unfold slice_upto, slice_stop.
    cbn [Z.ltb Z.compare]. rewrite Z.min_l by lia. reflexivity.
Qed.

(** C2, as the code has it. When the poll after data event [k + 1] is the
    first to report the client gone, exactly [k + 1] data events have been
    written and no further one follows, but the stream is still closed:
    what is written after that data event is the single terminal event
    [end_of_stream]. *)
Theorem disconnect_stops_data_then_ends (request : Request)
    (body : SearchRequest) (r : Response) (data : value) (rs : list value)
    (k : nat) :
  (forall g, network g = Replied r) ->
  is_success r = true ->
  json r = inr data ->
  web_results_of data = Some (PyList rs) ->
  forallb is_dict rs = true ->
  (forall j, (j < k)%nat -> disconnected request j = false) ->
  disconnected request k = true ->
  (k < length (slice_upto rs (py_or (count body) 5)))%nat ->
  let written := emitted (run (search request body)) in
  length (data_events written) = S k
  /\ after_data (S k) written = [ev_end_of_stream].
Proof.
  intros Hnet Hs Hj Hw Hd Hbefore Hat Hlen written. subst written.
  unfold search. set (c := py_or (count body) 5) in *.
  assert (Hne : rs <> []).
  { intros ->. unfold slice_upto in Hlen. rewrite firstn_nil in Hlen.
    cbn in Hlen. lia. }
  destruct (event_stream_streaming request (query body) c r data rs
              (Hnet _) Hs Hj Hw Hne Hd) as (p & s & H).
  rewrite H. cbn [emitted].
  rewrite (served_first_gone request (slice_upto rs c) k 0 Hbefore Hat Hlen).
  assert (Hk : length (firstn (S k) (slice_upto rs c)) = S k)
    by (apply firstn_length_le; lia).
  split.
  - rewrite data_events_app, data_events_app, frames_from_data.
    cbn. rewrite app_nil_r, frames_from_length. exact Hk.
  - cbn [app after_data]. change (is_data_event ev_search_started) with false.
    change (is_data_event ev_streaming) with false. cbv iota.
    rewrite <- Hk at 1. apply after_data_frames.
Qed.

(** C5. Whatever the provider does (any number of results, an HTTP error,
    a transport failure, a body of any shape), with the client connected
    throughout, the stream holds exactly one terminal marker, [end] or
    [error], and it is the last chunk. *)
Theorem one_terminal_marker_last (request : Request) (body : SearchRequest) :
  (forall k, disconnected request k = false) ->
  ends_once (emitted (run (search request body))).
Proof.
  intros _. unfold search.
  destruct (event_stream_shape request (query body) (py_or (count body) 5))
    as (front & last & p & s & H & Hlast & Hfront).
  rewrite H. exists front, last. auto.
Qed.

(** C6. When the provider answers successfully with an empty result list,
    the stream is exactly [Search started], [No results found], [end: []],
    with no data event. *)
Theorem zero_results_sequence (request : Request) (body : SearchRequest)
    (r : Response) (data : value) :
  (forall g, network g = Replied r) ->
  is_success r = true ->
  json r = inr data ->
  web_results_of data = Some (PyList []) ->
  emitted (run (search request body))
  = [ev_search_started; ev_no_results; ev_end_empty]
  /\ data_events (emitted (run (search request body))) = [].
Proof.
  intros Hnet Hs Hj Hw. unfold search.
  rewrite (event_stream_zero_results request _ _ r data (Hnet _) Hs Hj Hw).
  split; reflexivity.
Qed.

(** C7. When the provider answers with status 429, the stream is exactly
    [Search started] followed by one [error] event whose payload holds the
    status code 429 and the body of the response; there is no data event,
    nothing follows the error, and a single GET was issued. *)
Theorem http_429_sequence (request : Request) (body : SearchRequest)
    (r : Response) :
  (forall g, network g = Replied r) ->
  status_code r = 429 ->
  let w := run (search request body) in
  emitted w = [ev_search_started; ev_http_error r]
  /\ is_error_event (ev_http_error r) = true
  /\ contains (ev_http_error r) "429"
  /\ contains (ev_http_error r) (text r)
  /\ data_events (emitted w) = []
  /\ length (gets w) = 1%nat.
Proof.
  intros Hnet H429 w. subst w. unfold search.
  assert (Hs : is_success r = false) by (unfold is_success; now rewrite H429).
  rewrite (event_stream_http_error request _ _ r (Hnet _) Hs).
  cbn [emitted gets length]. repeat split.
  - exists ("event: error" ++ LF ++ "data: HTTP error "),
           (" - " ++ text r ++ LF ++ LF).
    unfold ev_http_error. rewrite H429. reflexivity.
  - exists ("event: error" ++ LF ++ "data: HTTP error 429 - "), (LF ++ LF).
    unfold ev_http_error. rewrite H429. reflexivity.
Qed.

(** C8, as the code has it. When the provider answers successfully with a
    JSON object that has no [web] key, or whose [web] value is an object
    with no [results] key, the missing list is taken as empty: the stream
    follows the EMPTY path and holds no [error] event. *)
Theorem missing_key_is_empty (request : Request) (body : SearchRequest)
    (r : Response) (d : list (string * value)) :
  (forall g, network g = Replied r) ->
  is_success r = true ->
  json r = inr (PyDict d) ->
  (dict_get d "web" = None
   \/ exists w, dict_get d "web" = Some (PyDict w)
                /\ dict_get w "results" = None) ->
  web_results_of (PyDict d) = None
  /\ emitted (run (search request body))
     = [ev_search_started; ev_no_results; ev_end_empty]
  /\ error_events (emitted (run (search request body))) = [].
Proof.
  intros Hnet Hs Hj Hmiss. unfold search.
  assert (E : run (event_stream request (query body) (py_or (count body) 5))
              = mkWorld [ev_search_started; ev_no_results; ev_end_empty]
                  [upstream_get BRAVE_API_KEY (query body)
                     (py_or (count body) 5) default_language] 0 0).
  { destruct Hmiss as [Hweb | (w & Hweb & Hres)].
    - apply (event_stream_empty request _ _ r d [] (PyList [])); auto.
      now rewrite Hweb.
    - apply (event_stream_empty request _ _ r d w (PyList [])); auto.
      + now rewrite Hweb.
      + now rewrite Hres. }
  rewrite E. split; [|split; reflexivity].
  cbn [web_results_of].
  destruct Hmiss as [Hweb | (w & Hweb & Hres)]; rewrite Hweb; auto.
Qed.

End RelayFacts.

(** ** Two runs of the translator *)

(** With the client connected, the loop serves the records up to the first
    item that is not one, and raises on that one. *)
Lemma stream_results_connected (dumps : value -> string) (request : Request)
    (items : list value) :
  (forall k, disconnected request k = false) ->
  forall i w, exists p s,
    stream_results dumps request i items w
    = (match first_non_record items with
       | None => Returned tt
       | Some bad => Raised (PyException AttributeError (no_get_attribute bad))
       end,
       mkWorld (emitted w ++ frames_from dumps i (leading_records items))
         (gets w) p s).
Proof.
  intros Hc. induction items as [|r rest IH]; intros i w.
  - exists (polls w), (sleeps w). cbn. rewrite app_nil_r.
    destruct w; reflexivity.
  - cbn [first_non_record leading_records]. destruct (is_dict r) eqn:Hr.
    + destruct r; try discriminate Hr.
      rewrite stream_results_step. cbv zeta. rewrite Hc.
      destruct (IH (i + 1)
                  (mkWorld (emitted w ++ [ev_data (dumps (record_chunk (i + 1) (PyDict d)))])
                     (gets w) (S (polls w)) (S (sleeps w)))) as (p & s & H).
      rewrite H. exists p, s. cbn [emitted gets frames_from].
      now rewrite <- app_assoc.
    + rewrite (stream_results_fault dumps request i r rest w Hr).
      exists (polls w), (sleeps w). cbn [frames_from]. rewrite app_nil_r.
      destruct w; reflexivity.
Qed.

(** One run, with the client connected: the chunks written are those the
    pure function gives for the count and for the answer to the GET. *)
Lemma event_stream_connected (key : string) (net : GetRequest -> reply)
    (dumps : value -> string) (slice_error : Z -> exn) (request : Request)
    (q : string) (c : Z) :
  (forall k, disconnected request k = false) ->
  emitted (run (event_stream key net dumps slice_error request q c))
  = connected_stream dumps slice_error c
      (net (upstream_get key q c default_language)).
Proof.
  intros Hc. unfold run, event_stream.
  cbn [catch bind Exc_Gen Monad_Gen].
  unfold yield at 1. cbn [world0 emitted gets polls sleeps app].
  rewrite brave_search_run. cbv zeta. cbn [emitted gets polls sleeps app].
  unfold connected_stream.
  destruct (net _) as [msg|r]; [reflexivity|].
  destruct (is_success r); [|reflexivity].
  destruct (json r) as [msg|data]; [reflexivity|].
  unfold connected_body.
  destruct data as [| | | | | |d];
    cbn [py_get ret raise Monad_Gen Exc_Gen]; try reflexivity.
  destruct (match dict_get d "web" with Some v => v | None => PyDict [] end)
    as [| | | | | |w]; cbn [py_get ret raise Monad_Gen Exc_Gen];
    try reflexivity.
  cbv zeta.
  destruct (match dict_get w "results" with Some v => v | None => PyList [] end)
    as [| | | |text|l|].
  all: destruct (truthy _); cbn [negb]; [|reflexivity].
  all: unfold yield at 1;
    cbn [py_slice py_iter ret raise Monad_Gen Exc_Gen
         emitted gets polls sleeps app];
    unfold connected_results; try reflexivity.
  - rewrite list_ascii_of_string_of_list_ascii.
    match goal with
    | |- context [stream_results dumps request 0 ?items ?w0] =>
        destruct (stream_results_connected dumps request items Hc 0 w0)
          as (p & s & H)
    end.
    rewrite H. unfold connected_items.
    destruct (first_non_record _); reflexivity.
  - match goal with
    | |- context [stream_results dumps request 0 ?items ?w0] =>
        destruct (stream_results_connected dumps request items Hc 0 w0)
          as (p & s & H)
    end.
    rewrite H. unfold connected_items.
    destruct (first_non_record _); reflexivity.
  - destruct (slice_error c); reflexivity.
Qed.

(** C10. The chunks written for a connected client are a function of the
    count and of the provider's answer to the one GET, and of nothing else:
    two runs that get the same answer to the same query and count write the
    same chunks, character for character, even when they differ in the
    credential, in the connection object and in what the provider would
    answer to any other request; and the common sequence is the one
    [connected_stream] computes from the count and the answer alone. *)
Theorem event_stream_function_of_answer (key1 key2 : string)
    (net1 net2 : GetRequest -> reply) (dumps : value -> string)
    (slice_error : Z -> exn) (req1 req2 : Request) (q : string) (c : Z)
    (answer : reply) :
  (forall k, disconnected req1 k = false) ->
  (forall k, disconnected req2 k = false) ->
  net1 (upstream_get key1 q c default_language) = answer ->
  net2 (upstream_get key2 q c default_language) = answer ->
  emitted (run (event_stream key1 net1 dumps slice_error req1 q c))
  = emitted (run (event_stream key2 net2 dumps slice_error req2 q c))
  /\ emitted (run (event_stream key1 net1 dumps slice_error req1 q c))
     = connected_stream dumps slice_error c answer.
Proof.
  intros H1 H2 Ha1 Ha2.
  rewrite (event_stream_connected key1 net1 dumps slice_error req1 q c H1).
  rewrite (event_stream_connected key2 net2 dumps slice_error req2 q c H2).
  rewrite Ha1, Ha2. split; reflexivity.
Qed.

(** ** The claims at concrete requests *)

(** C1. A request for language [fr] reaches the provider as [en]: the body's
    [language] never leaves the endpoint. *)
Theorem language_fr_sent_as_en :
  map (fun g => get_param (get_params g) "search_lang")
    (gets (run (search "KEY" (answers three_found) py_json_dumps
                  unhashable_slice still_connected
                  (mkSearchRequest "brave" 5 "fr"))))
  = [Some (PStr "en")].
Proof. reflexivity. Qed.

(** C2 as stated fails: the client is gone at the poll after the first of
    three data events, and a terminal event is written all the same. *)
Lemma disconnect_still_writes_end :
  let written :=
    emitted (run (search "KEY" (answers three_found) py_json_dumps
                    unhashable_slice (gone_at 0)
                    (mkSearchRequest "brave" 3 "en"))) in
  ~ (data_events (after_data 1 written) = []
     /\ terminal_events (after_data 1 written) = []).
Proof. intros written [_ H]. vm_compute in H. discriminate H. Qed.

(** C3 as stated fails: with [count = 0] and three results upstream, three
    data events are written. *)
Lemma zero_count_still_streams :
  let written :=
    emitted (run (search "KEY" (answers three_found) py_json_dumps
                    unhashable_slice still_connected
                    (mkSearchRequest "brave" 0 "en"))) in
  ~ (data_events written = []
     /\ exists front, written = (front ++ [ev_end_of_stream])%list).
Proof. intros written [H _]. vm_compute in H. discriminate H. Qed.

(** C8 as stated fails: a body whose [web] is [null] has no [web.results],
    and the stream ends with an [error] event instead of the EMPTY path. *)
Lemma null_web_is_an_error :
  let written :=
    emitted (run (search "KEY" (answers null_web) py_json_dumps
                    unhashable_slice still_connected
                    (mkSearchRequest "brave" 5 "en"))) in
  is_success null_web = true
  /\ json null_web = inr (PyDict [("web", PyNone)])
  /\ web_results_of (PyDict [("web", PyNone)]) = None
  /\ written
     = [ev_search_started;
        ev_exception "'NoneType' object has no attribute 'get'"]
  /\ written <> [ev_search_started; ev_no_results; ev_end_empty]
  /\ error_events written <> [].
Proof.
  intros written. repeat split; try reflexivity.
  - vm_compute. discriminate.
  - vm_compute. discriminate.
Qed.

(** The theorems above, applied to concrete requests. *)

Lemma data_events_follow_upstream_witness :
  length (data_events
            (emitted (run (search "KEY" (answers three_found) py_json_dumps
                             unhashable_slice still_connected
                             (mkSearchRequest "brave" 2 "en")))))
  = 2%nat.
Proof.
  apply (proj1 (data_events_follow_upstream "KEY" (answers three_found)
                  py_json_dumps unhashable_slice still_connected
                  (mkSearchRequest "brave" 2 "en") three_found
                  (results_body three_results) three_results
                  (fun _ => eq_refl) eq_refl eq_refl eq_refl eq_refl
                  (fun _ => eq_refl) eq_refl)).
Defined.

Lemma negative_count_drops_from_end_witness :
  length (data_events
            (emitted (run (search "KEY" (answers three_found) py_json_dumps
                             unhashable_slice still_connected
                             (mkSearchRequest "brave" (-1) "en")))))
  = 2%nat.
Proof.
  apply (proj2 (negative_count_drops_from_end "KEY" (answers three_found)
                  py_json_dumps unhashable_slice still_connected
                  "brave" "en" (-1) three_found
                  (results_body three_results) three_results
                  (fun _ => eq_refl) eq_refl eq_refl eq_refl eq_refl
                  (fun _ => eq_refl) eq_refl)).
Defined.

Lemma zero_count_served_as_five_witness :
  length (data_events
            (emitted (run (search "KEY" (answers three_found) py_json_dumps
                             unhashable_slice still_connected
                             (mkSearchRequest "brave" 0 "en")))))
  = 3%nat.
Proof.
  apply (proj1 (zero_count_served_as_five "KEY" (answers three_found)
                  py_json_dumps unhashable_slice still_connected
                  (mkSearchRequest "brave" 0 "en") three_found
                  (results_body three_results) three_results
                  (fun _ => eq_refl) eq_refl eq_refl eq_refl eq_refl
                  (fun _ => eq_refl) eq_refl)).
Defined.

Lemma disconnect_stops_data_then_ends_witness :
  after_data 2
    (emitted (run (search "KEY" (answers three_found) py_json_dumps
                     unhashable_slice (gone_at 1)
                     (mkSearchRequest "brave" 3 "en"))))
  = [ev_end_of_stream].
Proof.
  apply (proj2 (disconnect_stops_data_then_ends "KEY" (answers three_found)
                  py_json_dumps unhashable_slice (gone_at 1)
                  (mkSearchRequest "brave" 3 "en") three_found
                  (results_body three_results) three_results 1%nat
                  (fun _ => eq_refl) eq_refl eq_refl eq_refl eq_refl
                  ltac:(intros [|j] Hj; [reflexivity | lia])
                  eq_refl ltac:(vm_compute; lia))).
Defined.

Lemma one_terminal_marker_last_witness :
  ends_once
    (emitted (run (search "KEY" (answers too_many_requests) py_json_dumps
                     unhashable_slice still_connected
                     (mkSearchRequest "brave" 5 "en")))).
Proof.
  apply (one_terminal_marker_last "KEY" (answers too_many_requests)
           py_json_dumps unhashable_slice still_connected
           (mkSearchRequest "brave" 5 "en")).
  intros k. reflexivity.
Defined.

Lemma zero_results_sequence_witness :
  emitted (run (search "KEY" (answers none_found) py_json_dumps
                  unhashable_slice still_connected
                  (mkSearchRequest "brave" 5 "en")))
  = [ev_search_started; ev_no_results; ev_end_empty].
Proof.
  apply (proj1 (zero_results_sequence "KEY" (answers none_found)
                  py_json_dumps unhashable_slice still_connected
                  (mkSearchRequest "brave" 5 "en") none_found
                  (results_body [])
                  (fun _ => eq_refl) eq_refl eq_refl eq_refl)).
Defined.

Lemma http_429_sequence_witness :
  emitted (run (search "KEY" (answers too_many_requests) py_json_dumps
                  unhashable_slice still_connected
                  (mkSearchRequest "brave" 5 "en")))
  = [ev_search_started; ev_http_error too_many_requests].
Proof.
  apply (proj1 (http_429_sequence "KEY" (answers too_many_requests)
                  py_json_dumps unhashable_slice still_connected
                  (mkSearchRequest "brave" 5 "en") too_many_requests
                  (fun _ => eq_refl) eq_refl)).
Defined.

Lemma missing_key_is_empty_witness :
  emitted (run (search "KEY" (answers no_web_key) py_json_dumps
                  unhashable_slice still_connected
                  (mkSearchRequest "brave" 5 "en")))
  = [ev_search_started; ev_no_results; ev_end_empty].
Proof.
  apply (proj1 (proj2 (missing_key_is_empty "KEY" (answers no_web_key)
                         py_json_dumps unhashable_slice still_connected
                         (mkSearchRequest "brave" 5 "en") no_web_key
                         [("query", PyDict [])]
                         (fun _ => eq_refl) eq_refl eq_refl
                         (or_introl eq_refl)))).
Defined.

Lemma event_stream_function_of_answer_witness :
  emitted (run (event_stream "KEY" (answers three_found) py_json_dumps
                  unhashable_slice still_connected "brave" 2))
  = emitted (run (event_stream "OTHER KEY" (picky_network three_found)
                    py_json_dumps unhashable_slice
                    (mkRequest (fun k => Nat.ltb k 0)) "brave" 2)).
Proof.
  apply (proj1 (event_stream_function_of_answer "KEY" "OTHER KEY"
                  (answers three_found) (picky_network three_found)
                  py_json_dumps unhashable_slice still_connected
                  (mkRequest (fun k => Nat.ltb k 0)) "brave" 2
                  (Replied three_found)
                  (fun _ => eq_refl) (fun _ => eq_refl) eq_refl eq_refl)).
Defined.

(** ** Beyond the listed claims: every path of the relay *)

Section RelayEdges.

Variable BRAVE_API_KEY : string.
Variable network : GetRequest -> reply.
Variable json_dumps : value -> string.
Variable dict_slice_error : Z -> exn.

Local Notation stream_results := (stream_results json_dumps).
Local Notation event_stream :=
  (event_stream BRAVE_API_KEY network json_dumps dict_slice_error).
Local Notation search :=
  (search BRAVE_API_KEY network json_dumps dict_slice_error).

(** The books of the loop, whatever the items and the connection: it writes
    data events only, at most one per item, polls the connection once per
    data event and pauses at most as often; it pauses after every data
    event when the client stays connected. *)
Lemma stream_results_account (request : Request) (items : list value) :
  forall i w, exists ds s',
    snd (stream_results request i items w)
    = mkWorld (emitted w ++ ds) (gets w) (polls w + length ds) s'
    /\ data_events ds = ds
    /\ (length ds <= length items)%nat
    /\ (sleeps w <= s' <= sleeps w + length ds)%nat
    /\ ((forall k, disconnected request k = false) ->
        s' = (sleeps w + length ds)%nat).
Proof.
  induction items as [|r rest IH]; intros i w.
  - exists [], (sleeps w). cbn. rewrite app_nil_r, Nat.add_0_r.
    destruct w; cbn. repeat split; lia.
  - destruct (is_dict r) eqn:Hr.
    + destruct r; try discriminate Hr.
      rewrite stream_results_step. cbv zeta.
      destruct (disconnected request (polls w)) eqn:Hp.
      * exists [ev_data (json_dumps (record_chunk (i + 1) (PyDict d)))], (sleeps w).
        cbn [snd length]. rewrite Nat.add_1_r.
        repeat split; try lia.
        intros Hc. rewrite Hc in Hp. discriminate Hp.
      * destruct (IH (i + 1)
                    (mkWorld (emitted w ++ [ev_data (json_dumps (record_chunk (i + 1) (PyDict d)))])
                       (gets w) (S (polls w)) (S (sleeps w))))
          as (ds & s' & H & Hdata & Hlen & Hs & Hall).
        cbn [emitted gets polls sleeps] in H, Hs, Hall.
        exists (ev_data (json_dumps (record_chunk (i + 1) (PyDict d))) :: ds), s'.
        rewrite H, <- app_assoc. cbn [app length].
        replace (S (polls w) + length ds)%nat
          with (polls w + S (length ds))%nat by lia.
        repeat split; try lia.
        -- cbn [data_events filter]. rewrite data_event_is_data.
           f_equal. exact Hdata.
        -- intros Hc. rewrite (Hall Hc). lia.
    + rewrite (stream_results_fault json_dumps request i r rest w Hr).
      exists [], (sleeps w). cbn. rewrite app_nil_r, Nat.add_0_r.
      destruct w; cbn. repeat split; lia.
Qed.

Lemma slice_stop_le_stop (len : nat) (stop : Z) :
  0 <= stop -> (slice_stop len stop <= Z.to_nat stop)%nat.
Proof.
  intros H. unfold slice_stop. destruct (Z.ltb_spec stop 0); lia.
Qed.

Ltac begin_stream :=
  unfold run, event_stream;
  cbn [catch bind Exc_Gen Monad_Gen];
  unfold yield at 1; cbn [world0 emitted gets polls sleeps app];
  rewrite brave_search_run; cbv zeta;
  cbn [emitted gets polls sleeps app].

Ltac no_data_profile status :=
  exists status, (@nil string); eexists; exists O;
  unfold yield; cbn [snd emitted gets polls sleeps app length];
  split; [reflexivity|];
  repeat split; auto; try lia; try (intros; congruence).

(** The profile of every run: [Search started], at most one further status,
    the data events, one terminal marker. *)
Lemma event_stream_profile (request : Request) (q : string) (c : Z) :
  exists status ds last s,
    run (event_stream request q c)
    = mkWorld (ev_search_started :: status ++ ds ++ [last])
        [upstream_get BRAVE_API_KEY q c default_language] (length ds) s
    /\ (status = [] \/ status = [ev_no_results] \/ status = [ev_streaming])
    /\ (ds <> [] -> status = [ev_streaming])
    /\ data_events ds = ds
    /\ is_data_event last = false
    /\ is_terminal last = true
    /\ (s <= length ds)%nat
    /\ ((forall k, disconnected request k = false) -> s = length ds)
    /\ (0 <= c -> (length ds <= Z.to_nat c)%nat).
Proof.
  begin_stream.
  destruct (network _) as [msg|r].
  { no_data_profile (@nil string). }
  destruct (is_success r).
  2: { no_data_profile (@nil string). }
  destruct (json r) as [msg|data].
  { no_data_profile (@nil string). }
  destruct data as [| | | | | |d]; cbn [py_get ret raise Monad_Gen Exc_Gen type_name];
    try (no_data_profile (@nil string)).
  destruct (match dict_get d "web" with Some v => v | None => PyDict [] end)
    as [| | | | | |w]; cbn [py_get ret raise Monad_Gen Exc_Gen type_name];
    try (no_data_profile (@nil string)).
  destruct (match dict_get w "results" with Some v => v | None => PyList [] end)
    as [| | | |text|l|] eqn:Hres.
  all: destruct (truthy _) eqn:Ht; cbn [negb];
    [| no_data_profile [ev_no_results] ].
  all: unfold yield at 1;
    cbn [py_slice py_iter ret raise Monad_Gen Exc_Gen type_name
         emitted gets polls sleeps app];
    try (no_data_profile [ev_streaming]).
  - match goal with
    | |- context [stream_results request 0 ?items ?w0] =>
        destruct (stream_results_account request items 0 w0)
          as (ds & s' & H & Hdata & Hlen & Hs & Hall);
        destruct (stream_results request 0 items w0) as [o w1]
    end.
    cbn [snd emitted gets polls sleeps] in H, Hs, Hall. subst w1.
    exists [ev_streaming], ds.
    destruct o as [[]|[resp|cls msg]]; unfold yield;
      cbn [snd emitted gets polls sleeps app];
      eexists _, s'; (split; [reflexivity|]).
    all: repeat split; auto; try lia.
    all: intros Hc; apply slice_stop_le_stop with (len := length (list_ascii_of_string text)) in Hc;
      rewrite length_map, list_ascii_of_string_of_list_ascii, slice_upto_length in Hlen; lia.
  - match goal with
    | |- context [stream_results request 0 ?items ?w0] =>
        destruct (stream_results_account request items 0 w0)
          as (ds & s' & H & Hdata & Hlen & Hs & Hall);
        destruct (stream_results request 0 items w0) as [o w1]
    end.
    cbn [snd emitted gets polls sleeps] in H, Hs, Hall. subst w1.
    exists [ev_streaming], ds.
    destruct o as [[]|[resp|cls msg]]; unfold yield;
      cbn [snd emitted gets polls sleeps app];
      eexists _, s'; (split; [reflexivity|]).
    all: repeat split; auto; try lia.
    all: intros Hc; apply slice_stop_le_stop with (len := length l) in Hc;
      rewrite slice_upto_length in Hlen; lia.
  - destruct (dict_slice_error c) as [resp|cls msg];
      no_data_profile [ev_streaming].
Qed.

Lemma profile_data_events (status ds : list string) (last : string) :
  status = [] \/ status = [ev_no_results] \/ status = [ev_streaming] ->
  data_events ds = ds ->
  is_data_event last = false ->
  data_events (ev_search_started :: status ++ ds ++ [last]) = ds.
Proof.
  intros Hst Hds Hlast.
  change (ev_search_started :: status ++ ds ++ [last])
    with ([ev_search_started] ++ status ++ ds ++ [last])%list.
  rewrite !data_events_app, Hds.
  cbn [data_events filter]. rewrite Hlast.
  destruct Hst as [-> | [-> | ->]]; cbn; now rewrite app_nil_r.
Qed.

(** X1. Whatever the provider answers and whatever the client does, one
    request issues exactly one GET: to the provider's endpoint, with the
    configured key, a 10 second timeout, the body's query, and as [count]
    the same [body.count or 5] that later truncates the results. *)
Theorem search_issues_one_get (request : Request) (body : SearchRequest) :
  exists g,
    gets (run (search request body)) = [g]
    /\ get_url g = "https://api.search.brave.com/res/v1/web/search"
    /\ get_timeout g = 10
    /\ get_headers g
       = [("X-Subscription-Token", BRAVE_API_KEY);
          ("Accept", "application/json");
          ("Accept-Encoding", "gzip")]
    /\ get_param (get_params g) "q" = Some (PStr (query body))
    /\ get_param (get_params g) "count" = Some (PInt (py_or (count body) 5))
    /\ get_param (get_params g) "text_decorations" = Some (PStr "true").
Proof.
  unfold search.
  destruct (event_stream_profile request (query body) (py_or (count body) 5))
    as (status & ds & last & s & H & _).
  rewrite H. eexists. split; [reflexivity|]. repeat split.
Qed.

(** X2. For a count that is not negative, no provider answer and no client
    behaviour makes the stream carry more data events than
    [body.count or 5]. *)
Theorem data_events_never_exceed_count (request : Request)
    (body : SearchRequest) :
  0 <= count body ->
  (length (data_events (emitted (run (search request body))))
   <= Z.to_nat (py_or (count body) 5))%nat.
Proof.
  intros Hc. unfold search.
  destruct (event_stream_profile request (query body) (py_or (count body) 5))
    as (status & ds & last & s & H & Hst & _ & Hds & Hlast & _ & _ & _ & Hb).
  rewrite H. cbn [emitted]. rewrite (profile_data_events _ _ _ Hst Hds Hlast).
  apply Hb. unfold py_or. destruct (Z.eqb_spec (count body) 0); lia.
Qed.


(** X4. While the client stays connected the relay makes exactly as many
    0.1 s pauses as it writes data events, on every path: [n] data events
    cost [n] pauses. *)
Theorem pauses_match_data_events (request : Request)
    (body : SearchRequest) :
  (forall k, disconnected request k = false) ->
  sleeps (run (search request body))
  = length (data_events (emitted (run (search request body)))).
Proof.
  intros Hc. unfold search.
  destruct (event_stream_profile request (query body) (py_or (count body) 5))
    as (status & ds & last & s & H & Hst & _ & Hds & Hlast & _ & _ & Hall & _).
  rewrite H. cbn [emitted sleeps].
  rewrite (profile_data_events _ _ _ Hst Hds Hlast). auto.
Qed.

(** X5. Every stream opens with [Search started], and a data event is never
    written unless the [Streaming results] status came right after it. *)
Theorem data_only_after_streaming_status (request : Request)
    (body : SearchRequest) :
  exists rest,
    emitted (run (search request body)) = ev_search_started :: rest
    /\ rest <> []
    /\ (data_events (emitted (run (search request body))) <> [] ->
        exists rest', rest = ev_streaming :: rest').
Proof.
  unfold search.
  destruct (event_stream_profile request (query body) (py_or (count body) 5))
    as (status & ds & last & s & H & Hst & Hne & Hds & Hlast & _).
  rewrite H. cbn [emitted]. eexists. split; [reflexivity|]. split.
  - destruct status; [destruct ds|]; discriminate.
  - rewrite (profile_data_events _ _ _ Hst Hds Hlast). intros Hd.
    rewrite (Hne Hd). eexists. reflexivity.
Qed.

(** X6. When the transport fails (no response at all), the stream is exactly
    [Search started] and one [error] event carrying the text of the
    exception. *)
Theorem transport_failure_sequence (request : Request) (body : SearchRequest)
    (msg : string) :
  (forall g, network g = NoResponse msg) ->
  emitted (run (search request body))
  = [ev_search_started; ev_exception msg]
  /\ ev_exception msg
     = "event: error" ++ LF ++ "data: Exception: " ++ msg ++ LF ++ LF.
Proof.
  intros Hnet. unfold search.
  rewrite (event_stream_no_response BRAVE_API_KEY network json_dumps
             dict_slice_error request _ _ msg (Hnet _)).
  split; reflexivity.
Qed.

(** X7. When the provider answers 2xx with a body that does not decode as
    JSON, the stream is exactly [Search started] and one [error] event
    carrying the text of the decoding error. *)
Theorem undecodable_body_sequence (request : Request) (body : SearchRequest)
    (r : Response) (msg : string) :
  (forall g, network g = Replied r) ->
  is_success r = true ->
  json r = inl msg ->
  emitted (run (search request body))
  = [ev_search_started; ev_exception msg].
Proof.
  intros Hnet Hs Hj. unfold search.
  now rewrite (event_stream_undecodable BRAVE_API_KEY network json_dumps
                 dict_slice_error request _ _ r msg (Hnet _) Hs Hj).
Qed.

(** X8. Every 4xx or 5xx answer, whatever its body, gives exactly
    [Search started] and one [error] event made of the status code in
    decimal and the body text as received; the body is never decoded. *)
Theorem http_error_sequence (request : Request) (body : SearchRequest)
    (r : Response) :
  (forall g, network g = Replied r) ->
  400 <= status_code r <= 599 ->
  emitted (run (search request body))
  = ["event: status" ++ LF ++ "data: Search started" ++ LF ++ LF;
     "event: error" ++ LF ++ "data: HTTP error " ++ str_int (status_code r)
       ++ " - " ++ text r ++ LF ++ LF].
Proof.
  intros Hnet Hst. unfold search.
  assert (Hs : is_success r = false).
  { unfold is_success. destruct (Z.leb_spec (status_code r) 299); [lia|].
    now rewrite andb_false_r. }
  now rewrite (event_stream_http_error BRAVE_API_KEY network json_dumps
                 dict_slice_error request _ _ r (Hnet _) Hs).
Qed.

(** X9. A [web.results] that is present but falsy, whatever its type
    ([null], [false], [0], [0.0], an empty string, list or object), is
    taken for an empty result list: the stream is the EMPTY sequence. *)
Theorem falsy_results_sequence (request : Request) (body : SearchRequest)
    (r : Response) (data web_results : value) :
  (forall g, network g = Replied r) ->
  is_success r = true ->
  json r = inr data ->
  web_results_of data = Some web_results ->
  truthy web_results = false ->
  emitted (run (search request body))
  = [ev_search_started; ev_no_results; ev_end_empty].
Proof.
  intros Hnet Hs Hj Hw Ht. unfold search.
  destruct data as [| | | | | |d]; try discriminate Hw.
  cbn [web_results_of] in Hw.
  destruct (dict_get d "web") as [[| | | | | |w]|] eqn:Hweb; try discriminate Hw.
  rewrite (event_stream_empty BRAVE_API_KEY network json_dumps dict_slice_error
             request _ _ r d w web_results (Hnet _) Hs Hj); auto.
  - now rewrite Hweb.
  - now rewrite Hw.
Qed.

(** X10. A [web.results] that is a truthy number or [true] cannot be
    sliced: [Streaming results] is announced all the same, and the stream
    then ends with an [error] event naming the type. *)
Theorem scalar_results_sequence (request : Request) (body : SearchRequest)
    (r : Response) (data web_results : value) :
  (forall g, network g = Replied r) ->
  is_success r = true ->
  json r = inr data ->
  web_results_of data = Some web_results ->
  is_scalar web_results = true ->
  truthy web_results = true ->
  emitted (run (search request body))
  = [ev_search_started; ev_streaming;
     ev_exception ("'" ++ type_name web_results
                   ++ "' object is not subscriptable")].
Proof.
  intros Hnet Hs Hj Hw Hsc Ht. unfold search.
  destruct data as [| | | | | |d]; try discriminate Hw.
  cbn [web_results_of] in Hw.
  destruct (dict_get d "web") as [[| | | | | |w]|] eqn:Hweb; try discriminate Hw.
  begin_stream. rewrite (Hnet _), Hs, Hj.
  cbn [py_get ret Monad_Gen]. rewrite Hweb.
  cbn [py_get ret Monad_Gen]. rewrite Hw, Ht.
  destruct web_results; try discriminate Hsc; reflexivity.
Qed.

(** X11. A [web.results] that is a non-empty string is sliced and iterated
    character by character: for a count that is not negative the first
    character fails the field lookup, so the stream is [Search started],
    [Streaming results] and an [error] event, with no data event. *)
Theorem text_results_sequence (request : Request) (body : SearchRequest)
    (r : Response) (data : value) (c0 : ascii) (rest : string) :
  (forall g, network g = Replied r) ->
  is_success r = true ->
  json r = inr data ->
  web_results_of data = Some (PyStr (String c0 rest)) ->
  0 <= count body ->
  emitted (run (search request body))
  = [ev_search_started; ev_streaming;
     ev_exception "'str' object has no attribute 'get'"].
Proof.
  intros Hnet Hs Hj Hw Hc. unfold search.
  assert (Hpos : 0 < py_or (count body) 5)
    by (unfold py_or; destruct (Z.eqb_spec (count body) 0); lia).
  destruct data as [| | | | | |d]; try discriminate Hw.
  cbn [web_results_of] in Hw.
  destruct (dict_get d "web") as [[| | | | | |w]|] eqn:Hweb; try discriminate Hw.
  begin_stream. rewrite (Hnet _), Hs, Hj.
  cbn [py_get ret Monad_Gen]. rewrite Hweb.
  cbn [py_get ret Monad_Gen]. rewrite Hw.
  cbn [truthy String.eqb negb]. unfold yield at 1.
  cbn [py_slice py_iter ret Monad_Gen emitted gets polls sleeps app
       list_ascii_of_string].
  unfold slice_upto.
  destruct (slice_stop (length (c0 :: list_ascii_of_string rest))
              (py_or (count body) 5)) as [|m] eqn:E.
  { unfold slice_stop in E. cbn [length] in E.
    destruct (Z.ltb_spec (py_or (count body) 5) 0); lia. }
  cbn [firstn string_of_list_ascii list_ascii_of_string map].
  rewrite stream_results_fault by reflexivity. reflexivity.
Qed.

(** Records are served one after the other until a result that is not a
    record is met; nothing is written for that one. *)
Lemma stream_results_until_fault (request : Request) (pre : list value)
    (bad : value) (rest : list value) :
  forallb is_dict pre = true ->
  is_dict bad = false ->
  (forall k, disconnected request k = false) ->
  forall i w, exists p s,
    stream_results request i (pre ++ bad :: rest) w
    = (Raised (PyException AttributeError
                 ("'" ++ type_name bad ++ "' object has no attribute 'get'")),
       mkWorld (emitted w ++ frames_from json_dumps i pre) (gets w) p s).
Proof.
  intros Hpre Hbad Hc. induction pre as [|r pre IH]; intros i w.
  - cbn [app frames_from]. rewrite (stream_results_fault _ _ _ _ _ _ Hbad).
    exists (polls w), (sleeps w). rewrite app_nil_r. destruct w; reflexivity.
  - cbn [forallb] in Hpre. apply andb_prop in Hpre as [Hr Hpre].
    destruct r; try discriminate Hr.
    cbn [app]. rewrite stream_results_step. cbv zeta. rewrite Hc.
    destruct (IH Hpre (i + 1)
                (mkWorld (emitted w ++ [ev_data (json_dumps (record_chunk (i + 1) (PyDict d)))])
                   (gets w) (S (polls w)) (S (sleeps w)))) as (p & s & H).
    rewrite H. exists p, s. cbn [emitted gets frames_from].
    now rewrite <- app_assoc.
Qed.

(** X12. A result that is not a JSON object breaks the stream where it
    stands: with the client connected, the records before it are sent as
    data events numbered from 1, then one [error] event names its type;
    nothing of the results after it is sent and no [end] event follows. *)
Theorem non_record_result_sequence (request : Request) (body : SearchRequest)
    (r : Response) (data : value) (pre : list value) (bad : value)
    (post : list value) :
  (forall g, network g = Replied r) ->
  is_success r = true ->
  json r = inr data ->
  web_results_of data = Some (PyList (pre ++ bad :: post)) ->
  forallb is_dict pre = true ->
  is_dict bad = false ->
  (forall k, disconnected request k = false) ->
  (length pre
   < length (slice_upto (pre ++ bad :: post) (py_or (count body) 5)))%nat ->
  emitted (run (search request body))
  = ([ev_search_started; ev_streaming]
     ++ frames_from json_dumps 0 pre
     ++ [ev_exception ("'" ++ type_name bad
                       ++ "' object has no attribute 'get'")])%list.
Proof.
  intros Hnet Hs Hj Hw Hpre Hbad Hc Hin. unfold search.
  set (c := py_or (count body) 5) in *.
  assert (Hslice : exists tail, slice_upto (pre ++ bad :: post) c
                                = (pre ++ bad :: tail)%list).
  { unfold slice_upto in *. rewrite length_firstn in Hin.
    rewrite firstn_app, firstn_all2 by lia.
    destruct (slice_stop (length (pre ++ bad :: post)) c - length pre)%nat
      as [|m] eqn:E; [lia|].
    cbn [firstn]. eexists. reflexivity. }
  destruct Hslice as (tail & Hslice).
  assert (Hcons : exists x xs, (pre ++ bad :: post)%list = x :: xs)
    by (destruct pre; eexists _, _; reflexivity).
  destruct Hcons as (x & xs & Hcons).
  destruct data as [| | | | | |d]; try discriminate Hw.
  cbn [web_results_of] in Hw.
  destruct (dict_get d "web") as [[| | | | | |w]|] eqn:Hweb; try discriminate Hw.
  begin_stream. rewrite (Hnet _), Hs, Hj.
  cbn [py_get ret Monad_Gen]. rewrite Hweb.
  cbn [py_get ret Monad_Gen]. rewrite Hw, Hcons.
  cbn [truthy negb]. rewrite <- Hcons. unfold yield at 1.
  cbn [py_slice py_iter ret Monad_Gen emitted gets polls sleeps app].
  rewrite Hslice.
  match goal with
  | |- context [stream_results request 0 _ ?w0] =>
      destruct (stream_results_until_fault request pre bad tail
                  Hpre Hbad Hc 0 w0) as (p & s & H)
  end.
  rewrite H. unfold yield. cbn [snd emitted app]. reflexivity.
Qed.

(** X17. A decoded body that is not a JSON object, or whose [web] is present
    but is not a JSON object, is not taken for an empty result: the lookup
    fails and the stream is [Search started] and one [error] event naming
    the type that was found. *)
Theorem malformed_body_sequence (request : Request) (body : SearchRequest)
    (r : Response) (data culprit : value) :
  (forall g, network g = Replied r) ->
  is_success r = true ->
  json r = inr data ->
  is_dict culprit = false ->
  (data = culprit
   \/ exists d, data = PyDict d /\ dict_get d "web" = Some culprit) ->
  emitted (run (search request body))
  = [ev_search_started;
     ev_exception ("'" ++ type_name culprit
                   ++ "' object has no attribute 'get'")].
Proof.
  intros Hnet Hs Hj Hbad Hwhere. unfold search.
  begin_stream. rewrite (Hnet _), Hs, Hj.
  destruct Hwhere as [-> | (d & -> & Hweb)].
  - destruct culprit; try discriminate Hbad; reflexivity.
  - cbn [py_get ret Monad_Gen]. rewrite Hweb.
    destruct culprit; try discriminate Hbad; reflexivity.
Qed.

End RelayEdges.

(** ** What the data events are made of *)

Lemma frames_from_same_fields (dumps : value -> string) (l1 l2 : list value) :
  Forall2 same_fields l1 l2 ->
  forall i, frames_from dumps i l1 = frames_from dumps i l2.
Proof.
  induction 1 as [|r1 r2 l1 l2 (Ht & Hd & Hu) _ IH]; intros i; [reflexivity|].
  cbn [frames_from]. unfold record_chunk. now rewrite Ht, Hd, Hu, IH.
Qed.

Lemma Forall2_firstn {A B : Type} (R : A -> B -> Prop) (l1 : list A)
    (l2 : list B) :
  Forall2 R l1 l2 -> forall n, Forall2 R (firstn n l1) (firstn n l2).
Proof.
  induction 1; intros [|n]; cbn [firstn]; constructor; auto.
Qed.

(** The loop looks at how many items there are, not at what they hold, to
    decide how many it serves. *)
Lemma served_same_length {R : value -> value -> Prop} (request : Request)
    (l1 l2 : list value) :
  Forall2 R l1 l2 -> forall p, served request p l1 = served request p l2.
Proof.
  induction 1 as [|r1 r2 l1 l2 _ _ IH]; intros p; [reflexivity|].
  cbn [served]. now rewrite IH.
Qed.

Lemma frames_from_firstn (dumps : value -> string) (items : list value) :
  forall m i,
    frames_from dumps i (firstn m items) = firstn m (frames_from dumps i items).
Proof.
  induction items as [|r rest IH]; intros [|m] i; try reflexivity.
  cbn [firstn frames_from]. now rewrite IH.
Qed.

(** X13. Of a result record only [title], [description] and [url] are read:
    two provider answers whose records agree on these three fields give the
    same stream, chunk for chunk, whatever else the records hold and
    whatever the client does. *)
Theorem only_three_fields_are_read (key : string) (dumps : value -> string)
    (slice_error : Z -> exn) (net1 net2 : GetRequest -> reply)
    (request : Request) (body : SearchRequest) (r1 r2 : Response)
    (data1 data2 : value) (rs1 rs2 : list value) :
  (forall g, net1 g = Replied r1) ->
  (forall g, net2 g = Replied r2) ->
  is_success r1 = true ->
  is_success r2 = true ->
  json r1 = inr data1 ->
  json r2 = inr data2 ->
  web_results_of data1 = Some (PyList rs1) ->
  web_results_of data2 = Some (PyList rs2) ->
  forallb is_dict rs1 = true ->
  forallb is_dict rs2 = true ->
  Forall2 same_fields rs1 rs2 ->
  emitted (run (search key net1 dumps slice_error request body))
  = emitted (run (search key net2 dumps slice_error request body)).
Proof.
  intros Hn1 Hn2 Hs1 Hs2 Hj1 Hj2 Hw1 Hw2 Hd1 Hd2 Hsame. unfold search.
  set (c := py_or (count body) 5).
  destruct Hsame as [|x1 x2 l1 l2 Hx Hl].
  - rewrite (event_stream_zero_results key net1 dumps slice_error request
               _ _ r1 data1 (Hn1 _) Hs1 Hj1 Hw1).
    rewrite (event_stream_zero_results key net2 dumps slice_error request
               _ _ r2 data2 (Hn2 _) Hs2 Hj2 Hw2).
    reflexivity.
  - assert (Hsame : Forall2 same_fields (x1 :: l1) (x2 :: l2))
      by (constructor; assumption).
    destruct (event_stream_streaming key net1 dumps slice_error request
                (query body) c r1 data1 (x1 :: l1) (Hn1 _) Hs1 Hj1 Hw1
                ltac:(discriminate) Hd1) as (p1 & s1 & E1).
    destruct (event_stream_streaming key net2 dumps slice_error request
                (query body) c r2 data2 (x2 :: l2) (Hn2 _) Hs2 Hj2 Hw2
                ltac:(discriminate) Hd2) as (p2 & s2 & E2).
    rewrite E1, E2. cbn [emitted]. do 2 f_equal.
    assert (Hsl : Forall2 same_fields (slice_upto (x1 :: l1) c)
                    (slice_upto (x2 :: l2) c)).
    { unfold slice_upto. rewrite (Forall2_length Hsame).
      now apply Forall2_firstn. }
    rewrite (served_same_length request _ _ Hsl).
    apply frames_from_same_fields. now apply Forall2_firstn.
Qed.

(** X14. A client that disconnects receives a prefix of what a client that
    stays would have received: the data events written are the first ones,
    unchanged and in order, of the connected run. *)
Theorem disconnect_sends_a_prefix (key : string) (net : GetRequest -> reply)
    (dumps : value -> string) (slice_error : Z -> exn)
    (request : Request) (body : SearchRequest) (r : Response)
    (data : value) (rs : list value) :
  (forall g, net g = Replied r) ->
  is_success r = true ->
  json r = inr data ->
  web_results_of data = Some (PyList rs) ->
  forallb is_dict rs = true ->
  exists m,
    data_events (emitted (run (search key net dumps slice_error request body)))
    = firstn m
        (data_events
           (emitted (run (search key net dumps slice_error
                            still_connected body)))).
Proof.
  intros Hn Hs Hj Hw Hd. unfold search.
  set (c := py_or (count body) 5).
  destruct (event_stream_all_served key net dumps slice_error still_connected
              (query body) c r data rs (Hn _) Hs Hj Hw Hd
              (fun _ => eq_refl)) as [Hall _].
  rewrite Hall.
  destruct rs as [|r0 rs'].
  - rewrite (event_stream_zero_results key net dumps slice_error request
               _ _ r data (Hn _) Hs Hj Hw).
    exists O. reflexivity.
  - destruct (event_stream_streaming key net dumps slice_error request
                (query body) c r data (r0 :: rs') (Hn _) Hs Hj Hw
                ltac:(discriminate) Hd) as (p & s & E).
    rewrite E. cbn [emitted].
    exists (served request 0 (slice_upto (r0 :: rs') c)).
    rewrite !data_events_app, frames_from_data, frames_from_firstn.
    cbn. now rewrite app_nil_r.
Qed.

(** X15. A negative count that reaches past the start of the list leaves
    nothing to send, yet the STREAMING path is taken: with [n >= 1] records
    and [n + count <= 0] the stream is [Search started],
    [Streaming results], [end_of_stream], whatever the client does. *)
Theorem negative_count_can_empty_stream (key : string)
    (net : GetRequest -> reply) (dumps : value -> string)
    (slice_error : Z -> exn) (request : Request) (body : SearchRequest)
    (r : Response) (data : value) (rs : list value) :
  (forall g, net g = Replied r) ->
  is_success r = true ->
  json r = inr data ->
  web_results_of data = Some (PyList rs) ->
  forallb is_dict rs = true ->
  rs <> [] ->
  count body < 0 ->
  Z.of_nat (length rs) + count body <= 0 ->
  emitted (run (search key net dumps slice_error request body))
  = [ev_search_started; ev_streaming; ev_end_of_stream].
Proof.
  intros Hn Hs Hj Hw Hd Hne Hneg Hpast. unfold search.
  rewrite py_or_nonzero by lia.
  destruct (event_stream_streaming key net dumps slice_error request
              (query body) (count body) r data rs (Hn _) Hs Hj Hw Hne Hd)
    as (p & s & E).
  rewrite E. cbn [emitted].
  assert (Hempty : slice_upto rs (count body) = []).
  { unfold slice_upto, slice_stop.
    destruct (Z.ltb_spec (count body) 0); [|lia].
    now rewrite Z.max_l by lia. }
  rewrite Hempty. reflexivity.
Qed.

(** ** The data events on the wire, with [json.dumps] as Python has it *)

Lemma all_printable_app (a b : string) :
  all_printable (a ++ b) = all_printable a && all_printable b.
Proof.
  induction a as [|c a IH]; [reflexivity|].
  cbn [append all_printable]. now rewrite IH, andb_assoc.
Qed.

Lemma escape_char_printable (c : ascii) :
  all_printable (escape_char c) = true.
Proof.
  destruct c as [[] [] [] [] [] [] [] []]; reflexivity.
Qed.

Lemma escape_printable (s : string) : all_printable (escape s) = true.
Proof.
  induction s as [|c s IH]; [reflexivity|].
  cbn [escape]. now rewrite all_printable_app, escape_char_printable, IH.
Qed.

Lemma dumps_str_printable (s : string) : all_printable (dumps_str s) = true.
Proof.
  unfold dumps_str. now rewrite !all_printable_app, escape_printable.
Qed.

Lemma str_int_printable (z : Z) : all_printable (str_int z) = true.
Proof.
  unfold str_int.
  assert (Hu : forall d, all_printable (NilEmpty.string_of_uint d) = true)
    by (induction d; cbn; auto).
  assert (Hz : forall d, all_printable (NilZero.string_of_uint d) = true)
    by (intros d; destruct d; try reflexivity; apply (Hu (_ d))).
  destruct (Z.to_int z) as [d|d]; cbn [NilZero.string_of_int all_printable];
    rewrite ?Hz; reflexivity.
Qed.

(** Whatever the value, the serialized text is printable ASCII. *)
Lemma py_json_dumps_printable :
  forall v, floats_printable v = true -> all_printable (py_json_dumps v) = true.
Proof.
  fix IH 1. intros [ | [] | z | r | s | l | d] H; try reflexivity.
  - apply str_int_printable.
  - exact H.
  - apply dumps_str_printable.
  - cbn [py_json_dumps floats_printable] in *.
    rewrite !all_printable_app.
    match goal with
    | |- context [all_printable (?items l)] =>
        assert (Hitems : all_printable (items l) = true)
    end.
    { induction l as [|x rest IHl]; [reflexivity|].
      cbn [forallb] in H. apply andb_prop in H as [Hx Hrest].
      destruct rest as [|y rest']; [now apply IH|].
      rewrite !all_printable_app, (IH x Hx), (IHl Hrest). reflexivity. }
    rewrite Hitems. reflexivity.
  - cbn [py_json_dumps floats_printable] in *.
    rewrite !all_printable_app.
    match goal with
    | |- context [all_printable (?items d)] =>
        assert (Hitems : all_printable (items d) = true)
    end.
    { induction d as [|[k x] rest IHd]; [reflexivity|].
      apply andb_prop in H as [Hx Hrest].
      destruct rest as [|y rest'].
      - now rewrite !all_printable_app, dumps_str_printable, (IH x Hx).
      - rewrite !all_printable_app, dumps_str_printable, (IH x Hx), (IHd Hrest).
        reflexivity. }
    rewrite Hitems. reflexivity.
Qed.

Lemma printable_no_newline (p : string) :
  all_printable p = true -> ~ contains p LF.
Proof.
  intros Hp (before & after & E). subst p.
  rewrite !all_printable_app in Hp.
  apply andb_prop in Hp as [_ Hp]. apply andb_prop in Hp as [Hp _].
  discriminate Hp.
Qed.

Lemma dict_field_printable (r : value) (key : string) :
  floats_printable r = true -> floats_printable (dict_field r key) = true.
Proof.
  destruct r as [| | | | | |d]; try reflexivity.
  cbn [dict_field floats_printable].
  induction d as [|[k x] rest IH]; intros H; [reflexivity|].
  apply andb_prop in H as [Hx Hrest]. cbn [dict_get].
  destruct (String.eqb k key); [exact Hx | now apply IH].
Qed.

Lemma record_chunk_printable (index : Z) (r : value) :
  floats_printable r = true ->
  all_printable (py_json_dumps (record_chunk index r)) = true.
Proof.
  intros H. apply py_json_dumps_printable. unfold record_chunk.
  cbn [floats_printable]. now rewrite !dict_field_printable.
Qed.

Lemma frames_single_line (items : list value) :
  forallb floats_printable items = true ->
  forall i, Forall single_line_data (frames_from py_json_dumps i items).
Proof.
  induction items as [|r rest IH]; intros H i; [constructor|].
  cbn [forallb] in H. apply andb_prop in H as [Hr Hrest].
  cbn [frames_from]. constructor; [|now apply IH].
  eexists. split; [reflexivity|].
  pose proof (record_chunk_printable (i + 1) r Hr) as Hp.
  split; [exact Hp | now apply printable_no_newline].
Qed.

(** X16. With [json.dumps] as called (its defaults), for records whose text
    is made of code points up to U+00FF (ASCII and Latin-1: line breaks,
    control characters, quotes, backslashes and accented letters included)
    each data event is written as one printable-ASCII [data:] line: the
    payload never holds a line break, so such a result cannot cut the
    frame.  Text above U+00FF is outside the strings modelled here. *)
Theorem data_events_are_single_lines (key : string)
    (net : GetRequest -> reply) (slice_error : Z -> exn)
    (request : Request) (body : SearchRequest) (r : Response)
    (data : value) (rs : list value) :
  (forall g, net g = Replied r) ->
  is_success r = true ->
  json r = inr data ->
  web_results_of data = Some (PyList rs) ->
  forallb is_dict rs = true ->
  forallb floats_printable rs = true ->
  Forall single_line_data
    (data_events
       (emitted (run (search key net py_json_dumps slice_error request body)))).
Proof.
  intros Hn Hs Hj Hw Hd Hf. unfold search.
  set (c := py_or (count body) 5).
  destruct rs as [|r0 rs'].
  - rewrite (event_stream_zero_results key net py_json_dumps slice_error
               request _ _ r data (Hn _) Hs Hj Hw).
    constructor.
  - destruct (event_stream_streaming key net py_json_dumps slice_error request
                (query body) c r data (r0 :: rs') (Hn _) Hs Hj Hw
                ltac:(discriminate) Hd) as (p & s & E).
    rewrite E. cbn [emitted].
    rewrite !data_events_app, frames_from_data. cbn. rewrite app_nil_r.
    apply frames_single_line. unfold slice_upto.
    now do 2 apply forallb_firstn.
Qed.

(** The theorems of this part, applied to concrete requests. *)

Lemma data_events_never_exceed_count_witness :
  (length (data_events
             (emitted (run (search "KEY" (answers three_found) py_json_dumps
                              unhashable_slice (gone_at 5)
                              (mkSearchRequest "brave" 2 "en")))))
   <= 2)%nat.
Proof.
  apply (data_events_never_exceed_count "KEY" (answers three_found)
           py_json_dumps unhashable_slice (gone_at 5)
           (mkSearchRequest "brave" 2 "en")).
  cbn. lia.
Defined.

Lemma pauses_match_data_events_witness :
  sleeps (run (search "KEY" (answers three_found) py_json_dumps
                 unhashable_slice still_connected
                 (mkSearchRequest "brave" 2 "en")))
  = 2%nat.
Proof.
  apply (pauses_match_data_events "KEY" (answers three_found)
           py_json_dumps unhashable_slice still_connected
           (mkSearchRequest "brave" 2 "en")).
  intros k. reflexivity.
Defined.

Lemma transport_failure_sequence_witness :
  emitted (run (search "KEY" connection_lost py_json_dumps unhashable_slice
                  still_connected (mkSearchRequest "brave" 5 "en")))
  = [ev_search_started; ev_exception "All connection attempts failed"].
Proof.
  apply (proj1 (transport_failure_sequence "KEY" connection_lost
                  py_json_dumps unhashable_slice still_connected
                  (mkSearchRequest "brave" 5 "en")
                  "All connection attempts failed" (fun _ => eq_refl))).
Defined.

Lemma undecodable_body_sequence_witness :
  emitted (run (search "KEY" (answers not_json) py_json_dumps unhashable_slice
                  still_connected (mkSearchRequest "brave" 5 "en")))
  = [ev_search_started;
     ev_exception "Expecting value: line 1 column 1 (char 0)"].
Proof.
  apply (undecodable_body_sequence "KEY" (answers not_json) py_json_dumps
           unhashable_slice still_connected (mkSearchRequest "brave" 5 "en")
           not_json "Expecting value: line 1 column 1 (char 0)"
           (fun _ => eq_refl) eq_refl eq_refl).
Defined.

Lemma http_error_sequence_witness :
  emitted (run (search "KEY" (answers server_error) py_json_dumps
                  unhashable_slice still_connected
                  (mkSearchRequest "brave" 5 "en")))
  = [ev_search_started;
     "event: error" ++ LF ++ "data: HTTP error 503 - upstream down" ++ LF ++ LF].
Proof.
  apply (http_error_sequence "KEY" (answers server_error) py_json_dumps
           unhashable_slice still_connected (mkSearchRequest "brave" 5 "en")
           server_error (fun _ => eq_refl)).
  cbn. lia.
Defined.

Lemma falsy_results_sequence_witness :
  emitted (run (search "KEY" (answers null_results) py_json_dumps
                  unhashable_slice still_connected
                  (mkSearchRequest "brave" 5 "en")))
  = [ev_search_started; ev_no_results; ev_end_empty].
Proof.
  apply (falsy_results_sequence "KEY" (answers null_results) py_json_dumps
           unhashable_slice still_connected (mkSearchRequest "brave" 5 "en")
           null_results (PyDict [("web", PyDict [("results", PyNone)])]) PyNone
           (fun _ => eq_refl) eq_refl eq_refl eq_refl eq_refl).
Defined.

Lemma scalar_results_sequence_witness :
  emitted (run (search "KEY" (answers count_as_results) py_json_dumps
                  unhashable_slice still_connected
                  (mkSearchRequest "brave" 5 "en")))
  = [ev_search_started; ev_streaming;
     ev_exception "'int' object is not subscriptable"].
Proof.
  apply (scalar_results_sequence "KEY" (answers count_as_results)
           py_json_dumps unhashable_slice still_connected
           (mkSearchRequest "brave" 5 "en") count_as_results
           (PyDict [("web", PyDict [("results", PyInt 3)])]) (PyInt 3)
           (fun _ => eq_refl) eq_refl eq_refl eq_refl eq_refl eq_refl).
Defined.

Lemma text_results_sequence_witness :
  emitted (run (search "KEY" (answers text_as_results) py_json_dumps
                  unhashable_slice still_connected
                  (mkSearchRequest "brave" 5 "en")))
  = [ev_search_started; ev_streaming;
     ev_exception "'str' object has no attribute 'get'"].
Proof.
  apply (text_results_sequence "KEY" (answers text_as_results)
           py_json_dumps unhashable_slice still_connected
           (mkSearchRequest "brave" 5 "en") text_as_results
           (PyDict [("web", PyDict [("results", PyStr "none")])])
           "n"%char "one"
           (fun _ => eq_refl) eq_refl eq_refl eq_refl).
  cbn. lia.
Defined.

Lemma non_record_result_sequence_witness :
  emitted (run (search "KEY" (answers mixed_found) py_json_dumps
                  unhashable_slice still_connected
                  (mkSearchRequest "brave" 5 "en")))
  = ([ev_search_started; ev_streaming]
     ++ frames_from py_json_dumps 0 [rec1; rec2]
     ++ [ev_exception "'str' object has no attribute 'get'"])%list.
Proof.
  apply (non_record_result_sequence "KEY" (answers mixed_found)
           py_json_dumps unhashable_slice still_connected
           (mkSearchRequest "brave" 5 "en") mixed_found
           (results_body mixed_results) [rec1; rec2] (PyStr "ad") [rec3]
           (fun _ => eq_refl) eq_refl eq_refl eq_refl eq_refl eq_refl
           (fun _ => eq_refl)).
  vm_compute. lia.
Defined.

Lemma malformed_body_sequence_witness :
  emitted (run (search "KEY" (answers null_web) py_json_dumps
                  unhashable_slice still_connected
                  (mkSearchRequest "brave" 5 "en")))
  = [ev_search_started;
     ev_exception "'NoneType' object has no attribute 'get'"].
Proof.
  apply (malformed_body_sequence "KEY" (answers null_web) py_json_dumps
           unhashable_slice still_connected (mkSearchRequest "brave" 5 "en")
           null_web (PyDict [("web", PyNone)]) PyNone
           (fun _ => eq_refl) eq_refl eq_refl eq_refl).
  right. exists [("web", PyNone)]. split; reflexivity.
Defined.

Lemma only_three_fields_are_read_witness :
  emitted (run (search "KEY" (answers one_found) py_json_dumps
                  unhashable_slice still_connected
                  (mkSearchRequest "brave" 5 "en")))
  = emitted (run (search "KEY" (answers verbose_found) py_json_dumps
                    unhashable_slice still_connected
                    (mkSearchRequest "brave" 5 "en"))).
Proof.
  apply (only_three_fields_are_read "KEY" py_json_dumps unhashable_slice
           (answers one_found) (answers verbose_found) still_connected
           (mkSearchRequest "brave" 5 "en") one_found verbose_found
           (results_body [rec1]) (results_body [rec1_verbose])
           [rec1] [rec1_verbose]
           (fun _ => eq_refl) (fun _ => eq_refl) eq_refl eq_refl
           eq_refl eq_refl eq_refl eq_refl eq_refl eq_refl).
  constructor; [|constructor]. repeat split.
Defined.

Lemma disconnect_sends_a_prefix_witness :
  exists m,
    data_events
      (emitted (run (search "KEY" (answers three_found) py_json_dumps
                       unhashable_slice (gone_at 1)
                       (mkSearchRequest "brave" 5 "en"))))
    = firstn m
        (data_events
           (emitted (run (search "KEY" (answers three_found) py_json_dumps
                            unhashable_slice still_connected
                            (mkSearchRequest "brave" 5 "en"))))).
Proof.
  apply (disconnect_sends_a_prefix "KEY" (answers three_found) py_json_dumps
           unhashable_slice (gone_at 1) (mkSearchRequest "brave" 5 "en")
           three_found (results_body three_results) three_results
           (fun _ => eq_refl) eq_refl eq_refl eq_refl eq_refl).
Defined.

Lemma negative_count_can_empty_stream_witness :
  emitted (run (search "KEY" (answers three_found) py_json_dumps
                  unhashable_slice still_connected
                  (mkSearchRequest "brave" (-3) "en")))
  = [ev_search_started; ev_streaming; ev_end_of_stream].
Proof.
  apply (negative_count_can_empty_stream "KEY" (answers three_found)
           py_json_dumps unhashable_slice still_connected
           (mkSearchRequest "brave" (-3) "en") three_found
           (results_body three_results) three_results
           (fun _ => eq_refl) eq_refl eq_refl eq_refl eq_refl).
  - discriminate.
  - cbn. lia.
  - cbn. lia.
Defined.

Lemma data_events_are_single_lines_witness :
  Forall single_line_data
    (data_events
       (emitted (run (search "KEY" (answers multiline_found) py_json_dumps
                        unhashable_slice still_connected
                        (mkSearchRequest "brave" 5 "en"))))).
Proof.
  apply (data_events_are_single_lines "KEY" (answers multiline_found)
           unhashable_slice still_connected (mkSearchRequest "brave" 5 "en")
           multiline_found (results_body [rec_multiline; rec2])
           [rec_multiline; rec2]
           (fun _ => eq_refl) eq_refl eq_refl eq_refl eq_refl eq_refl).
Defined.
